(** * KRISHIVA: the home, profile and signup screens

    A shallow embedding of the three screens of the application
    ([app/index.tsx], [app/profile.tsx], [app/signup.tsx]) and of the platform
    services they call (strings, [JSON], [AsyncStorage], alerts, the router,
    interval timers), followed by the properties of the session snapshot, of
    the signup flow and of the synchronisation schedule.

    Conventions of the model.
    - A JavaScript string is a [string]: a sequence of code units below 256
      (the Latin-1 range).  Case mapping and white space are the ones
      JavaScript has on that range.
    - An [async] handler runs to completion before the next event is
      delivered; what an awaited call answers, and what a reconciliation
      pass leaves in the Local Store, is decided by the environment (fields
      [faults] and [reconcile] of the world).
    - A React state setter updates the component state of the world; a handler
      reads the values captured by its closure, which are the ones of the
      world at the time it is started. *)

From Stdlib Require Import String Ascii NArith ZArith List Bool Lia.
From stdpp Require Import gmap strings.
Import ListNotations.
Open Scope string_scope.
Open Scope list_scope.

#[local] Arguments String.append !s1 s2 : simpl nomatch.

(** ** JavaScript strings *)

Module JSString.

(** White space of [String.prototype.trim] and of the regular-expression
    class [\s], below 256: TAB, LF, VT, FF, CR, SP and NBSP. *)
Definition isWhiteSpace (c : ascii) : bool :=
  let n := N_of_ascii c in
  ((n =? 9) || (n =? 10) || (n =? 11) || (n =? 12) || (n =? 13)
   || (n =? 32) || (n =? 160))%N.

Fixpoint trimStart (s : string) : string :=
  match s with
  | EmptyString => EmptyString
  | String c r => if isWhiteSpace c then trimStart r else s
  end.

Definition isEmpty (s : string) : bool :=
  match s with EmptyString => true | String _ _ => false end.

Fixpoint trimEnd (s : string) : string :=
  match s with
  | EmptyString => EmptyString
  | String c r =>
      let r' := trimEnd r in
      if isWhiteSpace c && isEmpty r' then EmptyString else String c r'
  end.

(** [s.trim()] *)
Definition trim (s : string) : string := trimEnd (trimStart s).

(** Upper-case letters below 256 are A-Z, and the letters from 192 to 222
    except the multiplication sign 215; each has its lower case 32 above. *)
Definition lowerChar (c : ascii) : ascii :=
  let n := N_of_ascii c in
  if ((65 <=? n) && (n <=? 90)
      || (192 <=? n) && (n <=? 222) && negb (n =? 215))%N
  then ascii_of_N (n + 32) else c.

(** [s.toLowerCase()] *)
Fixpoint toLowerCase (s : string) : string :=
  match s with
  | EmptyString => EmptyString
  | String c r => String (lowerChar c) (toLowerCase r)
  end.

Fixpoint startsWith (s p : string) : bool :=
  match p, s with
  | EmptyString, _ => true
  | String _ _, EmptyString => false
  | String a p', String b s' => Ascii.eqb a b && startsWith s' p'
  end.

(** [s.includes(p)] *)
Fixpoint includes (s p : string) : bool :=
  startsWith s p
  || match s with
     | EmptyString => false
     | String _ s' => includes s' p
     end.

(** A string is truthy when it is not empty. *)
Definition truthy (s : string) : bool := negb (isEmpty s).

(** Observations on the ends of a string, to say what [trim] achieves. *)
Definition startsWithSpace (s : string) : bool :=
  match s with
  | EmptyString => false
  | String c _ => isWhiteSpace c
  end.

Fixpoint endsWithSpace (s : string) : bool :=
  match s with
  | EmptyString => false
  | String c r => if isEmpty r then isWhiteSpace c else endsWithSpace r
  end.

Fixpoint allWhiteSpace (s : string) : bool :=
  match s with
  | EmptyString => true
  | String c r => isWhiteSpace c && allWhiteSpace r
  end.

End JSString.

(** ** Regular expressions, matched by derivatives *)

Module RegExp.

Inductive regex : Type :=
| Never
| Empty
| Class (p : ascii -> bool)
| Seq (r1 r2 : regex)
| Alt (r1 r2 : regex)
| Star (r : regex).

(** [r+] *)
Definition Plus (r : regex) : regex := Seq r (Star r).

Definition Chr (c : ascii) : regex := Class (Ascii.eqb c).

Fixpoint nullable (r : regex) : bool :=
  match r with
  | Never => false
  | Empty => true
  | Class _ => false
  | Seq r1 r2 => nullable r1 && nullable r2
  | Alt r1 r2 => nullable r1 || nullable r2
  | Star _ => true
  end.

Fixpoint deriv (c : ascii) (r : regex) : regex :=
  match r with
  | Never => Never
  | Empty => Never
  | Class p => if p c then Empty else Never
  | Seq r1 r2 =>
      if nullable r1
      then Alt (Seq (deriv c r1) r2) (deriv c r2)
      else Seq (deriv c r1) r2
  | Alt r1 r2 => Alt (deriv c r1) (deriv c r2)
  | Star r' => Seq (deriv c r') (Star r')
  end.

(** [/^r$/.test(s)]: the whole of [s] is matched. *)
Fixpoint test (r : regex) (s : string) : bool :=
  match s with
  | EmptyString => nullable r
  | String c s' => test (deriv c r) s'
  end.

End RegExp.

(** ** JSON texts of session snapshots

    The values read from and written to the session key are flat objects
    whose properties hold strings (interface [UserData]: [id], [name],
    [email], [loginTime]).  [JSON.stringify] and [JSON.parse] are embedded on
    that fragment: an object lists its own properties in insertion order,
    which is the order JavaScript enumerates them in as long as no key is an
    array index; [parse] answers [None] on a text that is not the JSON text
    of such an object. *)

Module JSON.

Definition object : Type := list (string * string).

(** [o.k], [None] standing for [undefined] *)
Fixpoint get (o : object) (k : string) : option string :=
  match o with
  | [] => None
  | (k', v) :: o' => if String.eqb k' k then Some v else get o' k
  end.

(** [o.k = v] on a fresh copy: an existing property keeps its place, a new
    one goes last. *)
Fixpoint set (o : object) (k v : string) : object :=
  match o with
  | [] => [(k, v)]
  | (k', v') :: o' =>
      if String.eqb k' k then (k', v) :: o' else (k', v') :: set o' k v
  end.

Definition keys (o : object) : list string := map fst o.

Definition isDigit (c : ascii) : bool :=
  let n := N_of_ascii c in ((48 <=? n) && (n <=? 57))%N.

Fixpoint allDigits (s : string) : bool :=
  match s with
  | EmptyString => true
  | String c r => isDigit c && allDigits r
  end.

(** A canonical numeric key: [0], or digits not starting with [0]. *)
Definition isArrayIndex (k : string) : bool :=
  match k with
  | EmptyString => false
  | String c r =>
      isDigit c && allDigits r
      && (negb (N_of_ascii c =? 48)%N || JSString.isEmpty r)
  end.

Fixpoint distinct (l : list string) : bool :=
  match l with
  | [] => true
  | k :: l' => negb (existsb (String.eqb k) l') && distinct l'
  end.

(** Objects of the fragment: keys pairwise distinct, none an array index. *)
Definition ordinary (o : object) : bool :=
  distinct (keys o) && forallb (fun k => negb (isArrayIndex k)) (keys o).

Definition dquote : ascii := ascii_of_N 34.
Definition backslash : ascii := ascii_of_N 92.

Definition hexDigit (n : N) : ascii :=
  if (n <? 10)%N then ascii_of_N (48 + n) else ascii_of_N (87 + n).

(** QuoteJSONString, one code unit *)
Definition escapeChar (c : ascii) : string :=
  let n := N_of_ascii c in
  if (n =? 8)%N then String backslash "b"
  else if (n =? 9)%N then String backslash "t"
  else if (n =? 10)%N then String backslash "n"
  else if (n =? 12)%N then String backslash "f"
  else if (n =? 13)%N then String backslash "r"
  else if (n =? 34)%N then String backslash (String dquote EmptyString)
  else if (n =? 92)%N then String backslash (String backslash EmptyString)
  else if (n <? 32)%N then
    String backslash
      (String "u" (String "0" (String "0"
         (String (hexDigit (n / 16)) (String (hexDigit (n mod 16)) EmptyString)))))
  else String c EmptyString.

Fixpoint escape (s : string) : string :=
  match s with
  | EmptyString => EmptyString
  | String c r => escapeChar c +:+ escape r
  end.

Definition quote (s : string) : string :=
  String dquote (escape s +:+ String dquote EmptyString).

Definition member (kv : string * string) : string :=
  quote (fst kv) +:+ String ":" (quote (snd kv)).

Fixpoint moreMembers (o : object) : string :=
  match o with
  | [] => EmptyString
  | kv :: o' => String "," (member kv +:+ moreMembers o')
  end.

Definition members (o : object) : string :=
  match o with
  | [] => EmptyString
  | kv :: o' => member kv +:+ moreMembers o'
  end.

(** [JSON.stringify(o)] *)
Definition stringify (o : object) : string :=
  String "{" (members o +:+ String "}" EmptyString).

(** *** Reading *)

Inductive token : Type :=
| TLBrace | TRBrace | TColon | TComma
| TString (s : string).

(** Where the scanner is: between tokens, inside a string literal (with
    the code units read so far, last first), after a backslash, or inside
    a [\u] escape with [k] digits read whose value is [v]. *)
Inductive mode : Type :=
| Between
| InString (buf : list ascii)
| AfterBackslash (buf : list ascii)
| InUnicode (buf : list ascii) (k : nat) (v : N).

Definition isJSONSpace (c : ascii) : bool :=
  let n := N_of_ascii c in
  ((n =? 9) || (n =? 10) || (n =? 13) || (n =? 32))%N.

Definition hexValue (c : ascii) : option N :=
  let n := N_of_ascii c in
  if ((48 <=? n) && (n <=? 57))%N then Some (n - 48)%N
  else if ((97 <=? n) && (n <=? 102))%N then Some (n - 87)%N
  else if ((65 <=? n) && (n <=? 70))%N then Some (n - 55)%N
  else None.

(** The code unit a one-letter escape stands for. *)
Definition unescape (c : ascii) : option ascii :=
  let n := N_of_ascii c in
  if (n =? 34)%N then Some dquote
  else if (n =? 92)%N then Some backslash
  else if (n =? 47)%N then Some "/"%char
  else if (n =? 98)%N then Some (ascii_of_N 8)
  else if (n =? 102)%N then Some (ascii_of_N 12)
  else if (n =? 110)%N then Some (ascii_of_N 10)
  else if (n =? 114)%N then Some (ascii_of_N 13)
  else if (n =? 116)%N then Some (ascii_of_N 9)
  else None.

Definition ofBuffer (buf : list ascii) : string :=
  string_of_list_ascii (rev buf).

Fixpoint scan (m : mode) (s : string) (acc : list token) : option (list token) :=
  match s with
  | EmptyString =>
      match m with
      | Between => Some (rev acc)
      | _ => None
      end
  | String c r =>
      match m with
      | Between =>
          if isJSONSpace c then scan Between r acc
          else if Ascii.eqb c "{" then scan Between r (TLBrace :: acc)
          else if Ascii.eqb c "}" then scan Between r (TRBrace :: acc)
          else if Ascii.eqb c ":" then scan Between r (TColon :: acc)
          else if Ascii.eqb c "," then scan Between r (TComma :: acc)
          else if Ascii.eqb c dquote then scan (InString []) r acc
          else None
      | InString buf =>
          if Ascii.eqb c dquote then scan Between r (TString (ofBuffer buf) :: acc)
          else if Ascii.eqb c backslash then scan (AfterBackslash buf) r acc
          else if (N_of_ascii c <? 32)%N then None
          else scan (InString (c :: buf)) r acc
      | AfterBackslash buf =>
          match unescape c with
          | Some d => scan (InString (d :: buf)) r acc
          | None =>
              if Ascii.eqb c "u" then scan (InUnicode buf 0 0) r acc else None
          end
      | InUnicode buf k v =>
          match hexValue c with
          | None => None
          | Some h =>
              let v' := (16 * v + h)%N in
              if Nat.eqb k 3
              then if (v' <? 256)%N
                   then scan (InString (ascii_of_N v' :: buf)) r acc
                   else None
              else scan (InUnicode buf (S k) v') r acc
          end
      end
  end.

(** The members after the opening brace, up to the closing one; a key
    read twice keeps its first place and its last value. *)
Fixpoint parseMembers (ts : list token) (acc : object) : option object :=
  match ts with
  | TString k :: TColon :: TString v :: rest =>
      match rest with
      | [TRBrace] => Some (set acc k v)
      | TComma :: rest' => parseMembers rest' (set acc k v)
      | _ => None
      end
  | _ => None
  end.

Definition parseTokens (ts : list token) : option object :=
  match ts with
  | [TLBrace; TRBrace] => Some []
  | TLBrace :: ts' => parseMembers ts' []
  | _ => None
  end.

(** [JSON.parse(s)] on the fragment *)
Definition parse (s : string) : option object :=
  match scan Between s [] with
  | Some ts =>
      match parseTokens ts with
      | Some o => if ordinary o then Some o else None
      | None => None
      end
  | None => None
  end.

(** *** The tokens of a written object *)

(** The tokens of the members after the first. *)
Fixpoint moreTokens (o : object) : list token :=
  match o with
  | [] => []
  | kv :: o' => TComma :: TString (fst kv) :: TColon :: TString (snd kv) :: moreTokens o'
  end.

(** The tokens [stringify o] is made of. *)
Definition tokens (o : object) : list token :=
  match o with
  | [] => [TLBrace; TRBrace]
  | kv :: o' =>
      TLBrace :: TString (fst kv) :: TColon :: TString (snd kv)
        :: moreTokens o' ++ [TRBrace]
  end.

(** Setting the properties of [o], in order, on [acc]. *)
Definition setAll (o acc : object) : object :=
  fold_left (fun a kv => set a (fst kv) (snd kv)) o acc.

End JSON.

(** ** The world the screens run in *)

(** A thrown value, of which the screens read [message] only.  The values
    thrown are objects whose [message] is a string or is missing ([Error]
    objects among them); a thrown [undefined] or [null], of which no
    property can be read, is outside the model. *)
Record Error : Type := { message : option string }.

Definition mkError (m : string) : Error := {| message := Some m |}.

(** [error.message || fallback] *)
Definition messageOr (e : Error) (fallback : string) : string :=
  match message e with
  | Some m => if JSString.truthy m then m else fallback
  | None => fallback
  end.

(** A row of the Local Store. *)
Record UserRecord : Type :=
  { userId : Z; userRecordName : string; userEmail : string; userPassword : string }.

(** What [createUser] resolves to. *)
Record InsertResult : Type := { insertId : Z }.

(** The calls that leave the screens' own code. *)
Inductive Call : Type :=
| InitDatabase
| SetupSyncListener
| CheckAndSyncData
| CreateUser (name email password : string)
| GetItem (key : string)
| SetItem (key value : string)
| RemoveItem (key : string)
| SetInterval (id : nat) (ms : Z)
| ClearInterval (id : nat).

(** What an alert button runs when pressed. *)
Inductive Action : Type :=
| NoAction
| HomeLogoutConfirmed
| ProfileLogoutConfirmed
| ProfileNoSessionOk
| SignupSuccessOk
| SignupDuplicateGoToLogin
| SignupDuplicateOk.

Record Button : Type := { text : string; onPress : Action }.

Inductive Event : Type :=
| Invoked (c : Call) (failure : option Error)
| ConsoleLog (msg : string)
| ConsoleError (label : string) (e : Error)
| AlertShown (title msg : string) (buttons : list Button)
| RouterReplace (path : string)
| FocusEmail
| UnhandledRejection (e : Error)
| HomeUnmounted.

(** The body of an interval callback. *)
Inductive TimerCallback : Type :=
| SyncTick.

Record Timer : Type :=
  { timerId : nat; period : Z; started : Z; callback : TimerCallback }.

(** The teardown an effect hands to React. *)
Inductive Cleanup : Type :=
| ClearIntervalOf (id : nat).

Record HomeState : Type :=
  { isLoggedIn : option bool; userName : option string; homeLoading : bool }.

Record ProfileState : Type :=
  { userData : option JSON.object;
    profileLoading : bool;
    isEditing : bool;
    editedName : option string;
    saving : bool }.

Record SignupState : Type :=
  { name : string;
    email : string;
    password : string;
    confirmPassword : string;
    signupLoading : bool;
    emailInput : bool }.

Record World : Type :=
  { storage : gmap string string;          (* AsyncStorage *)
    users : list UserRecord;               (* Local Store *)
    timers : list Timer;                   (* live intervals *)
    nextTimer : nat;
    now : Z;                               (* milliseconds *)
    faults : nat -> option Error;          (* which external call fails, and how *)
    calls : nat;                           (* fallible external calls made so far *)
    trace : list Event;                    (* oldest first *)
    home : HomeState;
    profile : ProfileState;
    signup : SignupState;
    homeCleanup : option Cleanup;
    reconcile : nat -> list UserRecord -> list UserRecord
                                           (* what a pass leaves in the Local Store *) }.

Definition withStorage (s : gmap string string) (w : World) : World :=
  {| storage := s; users := users w; timers := timers w; nextTimer := nextTimer w;
     now := now w; faults := faults w; calls := calls w; trace := trace w;
     home := home w; profile := profile w; signup := signup w;
     homeCleanup := homeCleanup w; reconcile := reconcile w |}.

Definition withUsers (u : list UserRecord) (w : World) : World :=
  {| storage := storage w; users := u; timers := timers w; nextTimer := nextTimer w;
     now := now w; faults := faults w; calls := calls w; trace := trace w;
     home := home w; profile := profile w; signup := signup w;
     homeCleanup := homeCleanup w; reconcile := reconcile w |}.

Definition withTimers (t : list Timer) (n : nat) (w : World) : World :=
  {| storage := storage w; users := users w; timers := t; nextTimer := n;
     now := now w; faults := faults w; calls := calls w; trace := trace w;
     home := home w; profile := profile w; signup := signup w;
     homeCleanup := homeCleanup w; reconcile := reconcile w |}.

Definition withNow (t : Z) (w : World) : World :=
  {| storage := storage w; users := users w; timers := timers w; nextTimer := nextTimer w;
     now := t; faults := faults w; calls := calls w; trace := trace w;
     home := home w; profile := profile w; signup := signup w;
     homeCleanup := homeCleanup w; reconcile := reconcile w |}.

Definition withCalls (n : nat) (w : World) : World :=
  {| storage := storage w; users := users w; timers := timers w; nextTimer := nextTimer w;
     now := now w; faults := faults w; calls := n; trace := trace w;
     home := home w; profile := profile w; signup := signup w;
     homeCleanup := homeCleanup w; reconcile := reconcile w |}.

Definition withTrace (t : list Event) (w : World) : World :=
  {| storage := storage w; users := users w; timers := timers w; nextTimer := nextTimer w;
     now := now w; faults := faults w; calls := calls w; trace := t;
     home := home w; profile := profile w; signup := signup w;
     homeCleanup := homeCleanup w; reconcile := reconcile w |}.

Definition withHome (h : HomeState) (w : World) : World :=
  {| storage := storage w; users := users w; timers := timers w; nextTimer := nextTimer w;
     now := now w; faults := faults w; calls := calls w; trace := trace w;
     home := h; profile := profile w; signup := signup w;
     homeCleanup := homeCleanup w; reconcile := reconcile w |}.

Definition withProfile (p : ProfileState) (w : World) : World :=
  {| storage := storage w; users := users w; timers := timers w; nextTimer := nextTimer w;
     now := now w; faults := faults w; calls := calls w; trace := trace w;
     home := home w; profile := p; signup := signup w;
     homeCleanup := homeCleanup w; reconcile := reconcile w |}.

Definition withSignup (s : SignupState) (w : World) : World :=
  {| storage := storage w; users := users w; timers := timers w; nextTimer := nextTimer w;
     now := now w; faults := faults w; calls := calls w; trace := trace w;
     home := home w; profile := profile w; signup := s;
     homeCleanup := homeCleanup w; reconcile := reconcile w |}.

Definition withHomeCleanup (c : option Cleanup) (w : World) : World :=
  {| storage := storage w; users := users w; timers := timers w; nextTimer := nextTimer w;
     now := now w; faults := faults w; calls := calls w; trace := trace w;
     home := home w; profile := profile w; signup := signup w;
     homeCleanup := c; reconcile := reconcile w |}.

Definition withFaults (f : nat -> option Error) (w : World) : World :=
  {| storage := storage w; users := users w; timers := timers w; nextTimer := nextTimer w;
     now := now w; faults := f; calls := calls w; trace := trace w;
     home := home w; profile := profile w; signup := signup w;
     homeCleanup := homeCleanup w; reconcile := reconcile w |}.

Definition record (e : Event) (w : World) : World :=
  withTrace (trace w ++ [e]) w.

(** ** Handlers: state, exceptions, [try]/[catch]/[finally] *)

Inductive Completion (A : Type) : Type :=
| Normal (a : A)
| Thrown (e : Error).
Arguments Normal {A} a.
Arguments Thrown {A} e.

Definition M (A : Type) : Type := World -> Completion A * World.

Definition ret {A} (a : A) : M A := fun w => (Normal a, w).

Definition throw {A} (e : Error) : M A := fun w => (Thrown e, w).

Definition bind {A B} (m : M A) (k : A -> M B) : M B :=
  fun w =>
    match m w with
    | (Normal a, w') => k a w'
    | (Thrown e, w') => (Thrown e, w')
    end.

Declare Scope handler_scope.
Delimit Scope handler_scope with handler.
Notation "x <- m ;; k" := (bind m (fun x => k))
  (at level 100, m at next level, right associativity) : handler_scope.
Notation "m ;; k" := (bind m (fun _ => k))
  (at level 100, right associativity) : handler_scope.
Open Scope handler_scope.

(** [try { body } catch (error) { handler error }] *)
Definition tryCatch {A} (body : M A) (handler : Error -> M A) : M A :=
  fun w =>
    match body w with
    | (Normal a, w') => (Normal a, w')
    | (Thrown e, w') => handler e w'
    end.

(** [try { body } finally { final }]: [final] runs whatever [body] did, and
    its own completion wins only when it throws. *)
Definition tryFinally {A} (body : M A) (final : M unit) : M A :=
  fun w =>
    let (r, w') := body w in
    match final w' with
    | (Normal _, w'') => (r, w'')
    | (Thrown e, w'') => (Thrown e, w'')
    end.

Definition tryCatchFinally {A} (body : M A) (handler : Error -> M A)
    (final : M unit) : M A :=
  tryFinally (tryCatch body handler) final.

(** A promise nobody awaits nor catches: the caller goes on, and a rejection
    stays unhandled. *)
Definition floating {A} (m : M A) : M unit :=
  fun w =>
    match m w with
    | (Normal _, w') => (Normal tt, w')
    | (Thrown e, w') => (Normal tt, record (UnhandledRejection e) w')
    end.

Definition modify (f : World -> World) : M unit := fun w => (Normal tt, f w).

Definition emit (e : Event) : M unit := modify (record e).

(** An external call that may fail: the environment decides, from the number
    of such calls made before; a failing call changes nothing else. *)
Definition external {A} (c : Call) (run : World -> A * World) : M A :=
  fun w =>
    let w1 := withCalls (S (calls w)) w in
    match faults w (calls w) with
    | Some e => (Thrown e, record (Invoked c (Some e)) w1)
    | None =>
        let (a, w2) := run (record (Invoked c None) w1) in (Normal a, w2)
    end.

Definition exec {A} (m : M A) (w : World) : World := snd (m w).

Definition completion {A} (m : M A) (w : World) : Completion A := fst (m w).

(** ** Platform services *)

Module AsyncStorage.

Definition getItem (key : string) : M (option string) :=
  external (GetItem key) (fun w => (storage w !! key, w)).

Definition setItem (key value : string) : M unit :=
  external (SetItem key value)
    (fun w => (tt, withStorage (<[key := value]> (storage w)) w)).

Definition removeItem (key : string) : M unit :=
  external (RemoveItem key)
    (fun w => (tt, withStorage (delete key (storage w)) w)).

End AsyncStorage.

Module Alert.
Definition alert (title msg : string) (buttons : list Button) : M unit :=
  emit (AlertShown title msg buttons).
End Alert.

Module console.
Definition log (msg : string) : M unit := emit (ConsoleLog msg).
Definition error (label : string) (e : Error) : M unit := emit (ConsoleError label e).
End console.

Module router.
Definition replace (path : string) : M unit := emit (RouterReplace path).
End router.

Definition setInterval (cb : TimerCallback) (ms : Z) : M nat :=
  fun w =>
    let id := nextTimer w in
    let t := {| timerId := id; period := ms; started := now w; callback := cb |} in
    (Normal id,
     record (Invoked (SetInterval id ms) None) (withTimers (timers w ++ [t]) (S id) w)).

Definition clearInterval (id : nat) : M unit :=
  modify (fun w =>
    record (Invoked (ClearInterval id) None)
      (withTimers (List.filter (fun t => negb (Nat.eqb (timerId t) id)) (timers w))
         (nextTimer w) w)).

(** The text of the [SyntaxError] is the engine's own; no screen reads it. *)
Definition syntaxError : Error := mkError "SyntaxError".

(** Reading a property of [undefined]. *)
Definition typeError : Error := mkError "TypeError".

(** [JSON.parse] as the handlers call it.  It agrees with the platform on
    the texts of the fragment and on the texts that are no JSON at all; a
    JSON text outside the fragment (a number or [null] as a value, nested
    values) is read by the platform and refused here, so what is proved
    through this definition either assumes that the stored text is read
    ([JSON.parse t = Some o]) or states what holds on both paths. *)
Definition JSON_parse (s : string) : M JSON.object :=
  match JSON.parse s with
  | Some o => ret o
  | None => throw syntaxError
  end.

(** ** The database module ([../database/database]) *)

Module Database.

(** Modelled from the spec: [initDatabase] is not in the sources.  The spec
    says it must complete before any session or sync operation; here it is
    a call that completes or fails. *)
Definition initDatabase : M unit :=
  external InitDatabase (fun w => (tt, w)).

(** Modelled from the spec: [setupSyncListener] is not in the sources.  It
    registers the background reconciliation trigger. *)
Definition setupSyncListener : M unit :=
  external SetupSyncListener (fun w => (tt, w)).

(** Modelled from the spec: [checkAndSyncData] is not in the sources.  It
    is one reconciliation pass between the Local Store and the remote
    backend, which completes or fails.  What the pass leaves in the Local
    Store depends on the backend: it is the environment's (field
    [reconcile] of the world), whether the pass completes or fails. *)
Definition checkAndSyncData : M unit :=
  fun w =>
    let w1 := withUsers (reconcile w (calls w) (users w))
                (withCalls (S (calls w)) w) in
    match faults w (calls w) with
    | Some e => (Thrown e, record (Invoked CheckAndSyncData (Some e)) w1)
    | None => (Normal tt, record (Invoked CheckAndSyncData None) w1)
    end.

Definition emailTaken (us : list UserRecord) (email : string) : bool :=
  existsb (fun u => String.eqb (userEmail u) email) us.

(** An identifier no row has yet, and never zero. *)
Definition nextId (us : list UserRecord) : Z :=
  (1 + fold_right Z.max 0 (map userId us))%Z.

Definition duplicateMessage : string := "Email already exists".

(** Modelled from the spec: [createUser] is not in the sources.  The spec
    says: [createUser(name, email, password) -> {insertId}] fails (throws)
    when the email already exists, signalled by an error message containing
    a detectable substring; success yields an identifier, unique and
    assigned at creation.  Any other failure is the environment's. *)
Definition createUser (name email password : string) : M InsertResult :=
  fun w =>
    let c := CreateUser name email password in
    let w1 := withCalls (S (calls w)) w in
    match faults w (calls w) with
    | Some e => (Thrown e, record (Invoked c (Some e)) w1)
    | None =>
        if emailTaken (users w) email
        then let e := mkError duplicateMessage in
             (Thrown e, record (Invoked c (Some e)) w1)
        else let id := nextId (users w) in
             let u := {| userId := id; userRecordName := name;
                         userEmail := email; userPassword := password |} in
             (Normal {| insertId := id |},
              withUsers (users w ++ [u]) (record (Invoked c None) w1))
    end.

End Database.

(** ** Timers *)

Definition runCallback (cb : TimerCallback) : M unit :=
  match cb with
  | SyncTick => floating Database.checkAndSyncData   (* () => { checkAndSyncData(); } *)
  end.

Fixpoint fire (n : nat) (cb : TimerCallback) (w : World) : World :=
  match n with
  | O => w
  | S n' => fire n' cb (exec (runCallback cb) w)
  end.

(** How often a timer comes due in the interval from [t0] (excluded) to [t1]. *)
Definition firings (t : Timer) (t0 t1 : Z) : nat :=
  Z.to_nat ((t1 - started t) / period t - (t0 - started t) / period t)%Z.

(** [ms] milliseconds pass: every live timer runs its callback once for each
    of its periods that ends in them. *)
Definition elapse (ms : Z) (w : World) : World :=
  let t0 := now w in
  let t1 := (t0 + ms)%Z in
  fold_left (fun w' t => fire (firings t t0 t1) (callback t) w') (timers w)
    (withNow t1 w).

(** ** app/index.tsx: the home screen *)

Module Home.

Definition setIsLoggedIn (b : bool) : M unit :=
  modify (fun w =>
    withHome {| isLoggedIn := Some b; userName := userName (home w);
                homeLoading := homeLoading (home w) |} w).

Definition setUserName (n : option string) : M unit :=
  modify (fun w =>
    withHome {| isLoggedIn := isLoggedIn (home w); userName := n;
                homeLoading := homeLoading (home w) |} w).

Definition setLoading (b : bool) : M unit :=
  modify (fun w =>
    withHome {| isLoggedIn := isLoggedIn (home w); userName := userName (home w);
                homeLoading := b |} w).

(** [5 * 60 * 1000] *)
Definition syncPeriod : Z := 5 * 60 * 1000.

Definition initApp : M (option Cleanup) :=
  tryCatchFinally
    (Database.initDatabase ;;
     console.log "Database initialized successfully" ;;
     userSession <- AsyncStorage.getItem "userSession" ;;
     match userSession with
     | Some s =>
         if JSString.truthy s
         then (user <- JSON_parse s ;;
               setIsLoggedIn true ;;
               setUserName (JSON.get user "name"))
         else setIsLoggedIn false
     | None => setIsLoggedIn false
     end ;;
     Database.setupSyncListener ;;
     Database.checkAndSyncData ;;
     syncInterval <- setInterval SyncTick syncPeriod ;;
     ret (Some (ClearIntervalOf syncInterval)))
    (fun error =>
       console.error "Error initializing app:" error ;;
       Alert.alert "Error"
         "Failed to initialize the application. Please restart the app." [] ;;
       ret None)
    (setLoading false).

(** The callback given to [useEffect]: it starts [initApp] and returns
    nothing; what [initApp] resolves to goes with its promise. *)
Definition effect : M (option Cleanup) :=
  floating initApp ;;
  ret None.

Definition runCleanup (c : Cleanup) : M unit :=
  match c with
  | ClearIntervalOf id => clearInterval id
  end.

(** React mounts the screen: the effect runs and what it returns is kept
    for the teardown. *)
Definition mount (w : World) : World :=
  match effect w with
  | (Normal c, w') => withHomeCleanup c w'
  | (Thrown _, w') => withHomeCleanup None w'
  end.

(** React unmounts the screen: the teardown kept at mount, if any, runs. *)
Definition unmount (w : World) : World :=
  let w' :=
    match homeCleanup w with
    | Some c => exec (runCleanup c) w
    | None => w
    end in
  record HomeUnmounted (withHomeCleanup None w').

Definition handleLogout : M unit :=
  Alert.alert "Logout" "Are you sure you want to logout?"
    [ {| text := "Cancel"; onPress := NoAction |};
      {| text := "Logout"; onPress := HomeLogoutConfirmed |} ].

(** [onPress] of the button Logout *)
Definition logoutConfirmed : M unit :=
  tryCatch
    (AsyncStorage.removeItem "userSession" ;;
     setIsLoggedIn false ;;
     setUserName (Some EmptyString) ;;
     Alert.alert "Success" "You have been logged out successfully." [])
    (fun error =>
       console.error "Logout error:" error ;;
       Alert.alert "Error" "Failed to logout. Please try again." []).

Definition handleManualSync : M unit :=
  tryCatchFinally
    (setLoading true ;;
     Database.checkAndSyncData ;;
     Alert.alert "Success" "Data synchronized successfully!" [])
    (fun error =>
       console.error "Sync error:" error ;;
       Alert.alert "Error" "Failed to sync data. Please try again." [])
    (setLoading false).

(** What the component returns: the indicator while [loading], the screen
    of a logged-in user when [isLoggedIn] is truthy, the landing screen
    otherwise ([null] included). *)
Inductive View : Type :=
| Initializing
| Welcome (greeting : option string)
| Landing.

Definition render (h : HomeState) : View :=
  if homeLoading h then Initializing
  else match isLoggedIn h with
       | Some true => Welcome (userName h)
       | _ => Landing
       end.

End Home.

(** ** app/profile.tsx: the profile screen *)

Module Profile.

Definition setUserData (u : option JSON.object) : M unit :=
  modify (fun w =>
    let p := profile w in
    withProfile {| userData := u; profileLoading := profileLoading p;
                   isEditing := isEditing p; editedName := editedName p;
                   saving := saving p |} w).

Definition setLoading (b : bool) : M unit :=
  modify (fun w =>
    let p := profile w in
    withProfile {| userData := userData p; profileLoading := b;
                   isEditing := isEditing p; editedName := editedName p;
                   saving := saving p |} w).

Definition setIsEditing (b : bool) : M unit :=
  modify (fun w =>
    let p := profile w in
    withProfile {| userData := userData p; profileLoading := profileLoading p;
                   isEditing := b; editedName := editedName p;
                   saving := saving p |} w).

Definition setEditedName (n : option string) : M unit :=
  modify (fun w =>
    let p := profile w in
    withProfile {| userData := userData p; profileLoading := profileLoading p;
                   isEditing := isEditing p; editedName := n;
                   saving := saving p |} w).

Definition setSaving (b : bool) : M unit :=
  modify (fun w =>
    let p := profile w in
    withProfile {| userData := userData p; profileLoading := profileLoading p;
                   isEditing := isEditing p; editedName := editedName p;
                   saving := b |} w).

Definition loadUserData : M unit :=
  tryCatchFinally
    (userSession <- AsyncStorage.getItem "userSession" ;;
     match userSession with
     | Some s =>
         if JSString.truthy s
         then (user <- JSON_parse s ;;
               setUserData (Some user) ;;
               setEditedName (JSON.get user "name"))
         else Alert.alert "Error" "No user session found. Please login again."
                [ {| text := "OK"; onPress := ProfileNoSessionOk |} ]
     | None =>
         Alert.alert "Error" "No user session found. Please login again."
           [ {| text := "OK"; onPress := ProfileNoSessionOk |} ]
     end)
    (fun error =>
       console.error "Error loading user data:" error ;;
       Alert.alert "Error" "Failed to load profile data." [])
    (setLoading false).

(** [{...userData!}]: the own properties of the snapshot, none when there
    is no snapshot. *)
Definition spread (u : option JSON.object) : JSON.object :=
  match u with
  | Some o => o
  | None => []
  end.

(** The handler reads [editedName] and [userData] as its closure has them. *)
Definition handleSaveProfile : M unit :=
  fun w =>
    let closure := profile w in
    (edited <- match editedName closure with
               | Some n => ret n
               | None => throw typeError
               end ;;
     if negb (JSString.truthy (JSString.trim edited))
     then Alert.alert "Error" "Name cannot be empty" []
     else
       setSaving true ;;
       tryCatchFinally
         (let updatedUser :=
            JSON.set (spread (userData closure)) "name" (JSString.trim edited) in
          AsyncStorage.setItem "userSession" (JSON.stringify updatedUser) ;;
          setUserData (Some updatedUser) ;;
          setIsEditing false ;;
          Alert.alert "Success" "Profile updated successfully!" [])
         (fun error =>
            console.error "Error saving profile:" error ;;
            Alert.alert "Error" "Failed to update profile. Please try again." [])
         (setSaving false)) w.

Definition handleCancelEdit : M unit :=
  fun w =>
    let closure := profile w in
    (setEditedName
       (match userData closure with
        | Some u =>
            match JSON.get u "name" with
            | Some n => if JSString.truthy n then Some n else Some EmptyString
            | None => Some EmptyString
            end
        | None => Some EmptyString
        end) ;;
     setIsEditing false) w.

Definition handleLogout : M unit :=
  Alert.alert "Logout" "Are you sure you want to logout?"
    [ {| text := "Cancel"; onPress := NoAction |};
      {| text := "Logout"; onPress := ProfileLogoutConfirmed |} ].

(** [onPress] of the button Logout *)
Definition logoutConfirmed : M unit :=
  tryCatch
    (AsyncStorage.removeItem "userSession" ;;
     router.replace "/")
    (fun error =>
       console.error "Logout error:" error ;;
       Alert.alert "Error" "Failed to logout. Please try again." []).

(** [onPress] of the button OK of the alert of a missing session *)
Definition noSessionOk : M unit := router.replace "/login".

(** [onChangeText] of the name field *)
Definition onChangeText (t : string) : M unit := setEditedName (Some t).

(** [onPress] of the button of the header: [setIsEditing(!isEditing)] *)
Definition toggleEditing : M unit :=
  fun w => setIsEditing (negb (isEditing (profile w))) w.

(** What the component returns: the indicator while [loading], the retry
    screen without a snapshot, the details otherwise. *)
Inductive View : Type :=
| LoadingProfile
| FailedToLoad
| Details (user : JSON.object) (editing : bool) (field : option string) (busy : bool).

Definition render (p : ProfileState) : View :=
  if profileLoading p then LoadingProfile
  else match userData p with
       | None => FailedToLoad
       | Some u => Details u (isEditing p) (editedName p) (saving p)
       end.

End Profile.

(** ** app/signup.tsx: the signup screen *)

Module Signup.

Definition setName (v : string) : M unit :=
  modify (fun w =>
    let s := signup w in
    withSignup {| name := v; email := email s; password := password s;
                  confirmPassword := confirmPassword s;
                  signupLoading := signupLoading s; emailInput := emailInput s |} w).

Definition setEmail (v : string) : M unit :=
  modify (fun w =>
    let s := signup w in
    withSignup {| name := name s; email := v; password := password s;
                  confirmPassword := confirmPassword s;
                  signupLoading := signupLoading s; emailInput := emailInput s |} w).

Definition setPassword (v : string) : M unit :=
  modify (fun w =>
    let s := signup w in
    withSignup {| name := name s; email := email s; password := v;
                  confirmPassword := confirmPassword s;
                  signupLoading := signupLoading s; emailInput := emailInput s |} w).

Definition setConfirmPassword (v : string) : M unit :=
  modify (fun w =>
    let s := signup w in
    withSignup {| name := name s; email := email s; password := password s;
                  confirmPassword := v;
                  signupLoading := signupLoading s; emailInput := emailInput s |} w).

Definition setLoading (b : bool) : M unit :=
  modify (fun w =>
    let s := signup w in
    withSignup {| name := name s; email := email s; password := password s;
                  confirmPassword := confirmPassword s;
                  signupLoading := b; emailInput := emailInput s |} w).

(** The field is focused when its reference has been set. *)
Definition setFocus (field : string) : M unit :=
  fun w =>
    (if String.eqb field "email" && emailInput (signup w)
     then emit FocusEmail
     else ret tt) w.

Definition notSpaceNorAt (c : ascii) : bool :=
  negb (JSString.isWhiteSpace c) && negb (Ascii.eqb c "@").

(** [/^[^\s@]+@[^\s@]+\.[^\s@]+$/] *)
Definition emailRegex : RegExp.regex :=
  RegExp.Seq (RegExp.Plus (RegExp.Class notSpaceNorAt))
    (RegExp.Seq (RegExp.Chr "@")
       (RegExp.Seq (RegExp.Plus (RegExp.Class notSpaceNorAt))
          (RegExp.Seq (RegExp.Chr ".")
             (RegExp.Plus (RegExp.Class notSpaceNorAt))))).

Definition validateEmail (email : string) : bool :=
  RegExp.test emailRegex email.

(** The four checks made before anything is sent. *)
Definition filled (s : SignupState) : bool :=
  JSString.truthy (JSString.trim (name s))
  && JSString.truthy (JSString.trim (email s))
  && JSString.truthy (password s)
  && JSString.truthy (confirmPassword s).

(** The rest of the [try] block, once [createUser] has answered. *)
Definition created (userId : InsertResult) : M unit :=
  setLoading false ;;
  if negb (insertId userId =? 0)%Z
  then Alert.alert "Success" "Account created successfully!"
         [ {| text := "OK"; onPress := SignupSuccessOk |} ]
  else throw (mkError "Failed to create account. Please try again.").

(** The [catch] block. *)
Definition failed (error : Error) : M unit :=
  setLoading false ;;
  console.error "Signup error:" error ;;
  let errorMessage :=
    messageOr error "An error occurred during signup. Please try again." in
  if JSString.includes errorMessage "already exists"
  then Alert.alert "Email Already Exists" errorMessage
         [ {| text := "Go to Login"; onPress := SignupDuplicateGoToLogin |};
           {| text := "OK"; onPress := SignupDuplicateOk |} ]
  else Alert.alert "Signup Failed" errorMessage [].

Definition handleSignup : M unit :=
  fun w =>
    let closure := signup w in
    (if negb (filled closure)
     then Alert.alert "Error" "Please fill in all fields" []
     else if negb (validateEmail (JSString.trim (email closure)))
     then Alert.alert "Error" "Please enter a valid email address" []
     else if negb (String.eqb (password closure) (confirmPassword closure))
     then Alert.alert "Error" "Passwords do not match" []
     else if (String.length (password closure) <? 6)%nat
     then Alert.alert "Error" "Password must be at least 6 characters long" []
     else
       setLoading true ;;
       tryCatch
         (userId <- Database.createUser (JSString.trim (name closure))
                      (JSString.toLowerCase (JSString.trim (email closure)))
                      (password closure) ;;
          created userId)
         failed) w.

(** [onPress] of the button OK of the alert of a created account *)
Definition successOk : M unit :=
  setName EmptyString ;;
  setEmail EmptyString ;;
  setPassword EmptyString ;;
  setConfirmPassword EmptyString ;;
  router.replace "/login".

(** [onPress] of the button Go to Login *)
Definition duplicateGoToLogin : M unit :=
  setEmail EmptyString ;;
  setPassword EmptyString ;;
  setConfirmPassword EmptyString ;;
  router.replace "/login".

(** [onPress] of the button OK of the alert of a duplicate email *)
Definition duplicateOk : M unit :=
  setEmail EmptyString ;;
  setFocus "email".

Definition initializeApp : M unit :=
  tryCatch
    (Database.initDatabase ;;
     Database.setupSyncListener)
    (fun error =>
       console.error "Error initializing database:" error ;;
       Alert.alert "Database Error"
         "Failed to initialize database. Please restart the app." []).

(** The callback given to [useEffect]: it starts [initializeApp]; the
    teardown it returns does nothing. *)
Definition effect : M unit := floating initializeApp.

End Signup.

(** Pressing a button of an alert. *)
Definition press (a : Action) : M unit :=
  match a with
  | NoAction => ret tt
  | HomeLogoutConfirmed => Home.logoutConfirmed
  | ProfileLogoutConfirmed => Profile.logoutConfirmed
  | ProfileNoSessionOk => Profile.noSessionOk
  | SignupSuccessOk => Signup.successOk
  | SignupDuplicateGoToLogin => Signup.duplicateGoToLogin
  | SignupDuplicateOk => Signup.duplicateOk
  end.

(** ** Observing a run *)

Definition isSync (e : Event) : bool :=
  match e with
  | Invoked CheckAndSyncData _ => true
  | _ => false
  end.

(** How many reconciliation passes have been started. *)
Definition countSync (tr : list Event) : nat := length (List.filter isSync tr).

(** Title and message of the alerts shown. *)
Definition alertsOf (tr : list Event) : list (string * string) :=
  flat_map (fun e => match e with AlertShown t m _ => [(t, m)] | _ => [] end) tr.

(** The external calls made. *)
Definition callsOf (tr : list Event) : list Call :=
  flat_map (fun e => match e with Invoked c _ => [c] | _ => [] end) tr.

(** The session key is absent or empty, or holds a text [JSON.parse] reads. *)
Definition sessionReadable (w : World) : bool :=
  match storage w !! "userSession" with
  | Some s =>
      if JSString.truthy s
      then match JSON.parse s with Some _ => true | None => false end
      else true
  | None => true
  end.

(** At startup [initDatabase] completes, the session key is read and
    [setupSyncListener] is registered. *)
Definition listenerArmed (w : World) : Prop :=
  faults w (calls w) = None
  /\ faults w (S (calls w)) = None
  /\ sessionReadable w = true
  /\ faults w (S (S (calls w))) = None.

(** The eager pass of the startup is the fourth fallible call. *)
Definition eagerPassFails (w : World) (e : Error) : Prop :=
  listenerArmed w /\ faults w (S (S (S (calls w)))) = Some e.

Definition eagerPassCompletes (w : World) : Prop :=
  listenerArmed w /\ faults w (S (S (S (calls w)))) = None.

(** The signup form passes the four checks of [handleSignup]. *)
Definition validSubmission (s : SignupState) : bool :=
  Signup.filled s
  && Signup.validateEmail (JSString.trim (email s))
  && String.eqb (password s) (confirmPassword s)
  && negb (String.length (password s) <? 6)%nat.

(** The timer [initApp] installs. *)
Definition syncTimer (w : World) : Timer :=
  {| timerId := nextTimer w; period := Home.syncPeriod; started := now w;
     callback := SyncTick |}.

(** The calls that write: to storage or to the Local Store. *)
Definition isWrite (c : Call) : bool :=
  match c with
  | SetItem _ _ | RemoveItem _ | CreateUser _ _ _ => true
  | _ => false
  end.


(** The unhandled rejections recorded. *)
Definition rejectionsOf (tr : list Event) : list Error :=
  flat_map (fun e => match e with UnhandledRejection x => [x] | _ => [] end) tr.

(** The labels given to [console.error]. *)
Definition errorsLogged (tr : list Event) : list string :=
  flat_map (fun e => match e with ConsoleError l _ => [l] | _ => [] end) tr.

(** How often the live timers come due, all together, from [t0] to [t1]. *)
Definition allFirings (ts : list Timer) (t0 t1 : Z) : nat :=
  fold_right (fun t n => firings t t0 t1 + n) 0 ts.

(** ** What a regular expression matches *)

Inductive matches : RegExp.regex -> string -> Prop :=
| MEmpty : matches RegExp.Empty EmptyString
| MClass (p : ascii -> bool) (c : ascii) :
    p c = true -> matches (RegExp.Class p) (String c EmptyString)
| MSeq (r1 r2 : RegExp.regex) (s1 s2 : string) :
    matches r1 s1 -> matches r2 s2 -> matches (RegExp.Seq r1 r2) (s1 +:+ s2)
| MAltL (r1 r2 : RegExp.regex) (s : string) :
    matches r1 s -> matches (RegExp.Alt r1 r2) s
| MAltR (r1 r2 : RegExp.regex) (s : string) :
    matches r2 s -> matches (RegExp.Alt r1 r2) s
| MStarNil (r : RegExp.regex) : matches (RegExp.Star r) EmptyString
| MStarMore (r : RegExp.regex) (s1 s2 : string) :
    matches r s1 -> matches (RegExp.Star r) s2 -> matches (RegExp.Star r) (s1 +:+ s2).

Fixpoint allChars (p : ascii -> bool) (s : string) : bool :=
  match s with
  | EmptyString => true
  | String c r => p c && allChars p r
  end.

(** A part of an address: not empty, no white space, no [@]. *)
Definition addressPart (s : string) : Prop :=
  s <> EmptyString /\ allChars Signup.notSpaceNorAt s = true.

(** No session is stored: the key is absent or holds the empty text. *)
Definition noSession (w : World) : bool :=
  match storage w !! "userSession" with
  | Some t => negb (JSString.truthy t)
  | None => true
  end.

(** ** Sample worlds *)

Definition noFaults : nat -> option Error := fun _ => None.

Definition failAt (n : nat) (e : Error) : nat -> option Error :=
  fun i => if Nat.eqb i n then Some e else None.

(** The application has just started: nothing stored, nobody registered,
    no timer, every screen in its initial state. *)
Definition freshWorld : World :=
  {| storage := ∅; users := []; timers := []; nextTimer := 0; now := 0;
     faults := noFaults; calls := 0; trace := [];
     home := {| isLoggedIn := None; userName := Some EmptyString; homeLoading := true |};
     profile := {| userData := None; profileLoading := true; isEditing := false;
                   editedName := Some EmptyString; saving := false |};
     signup := {| name := EmptyString; email := EmptyString; password := EmptyString;
                  confirmPassword := EmptyString; signupLoading := false;
                  emailInput := true |};
     homeCleanup := None;
     reconcile := fun _ us => us |}.

Definition networkDown : Error := mkError "Network request failed".


Definition ashaForm : SignupState :=
  {| name := " Asha Rao "; email := "ASHA@x.com "; password := "secret1";
     confirmPassword := "secret1"; signupLoading := false; emailInput := true |}.

Definition ashaRecord : UserRecord :=
  {| userId := 1; userRecordName := "Asha Rao"; userEmail := "asha@x.com";
     userPassword := "secret1" |}.

Definition ashaSnapshot : JSON.object :=
  [("id", "1"); ("name", "Asha Rao"); ("email", "asha@x.com");
   ("loginTime", "2024-05-01T10:00:00.000Z")].

(** Asha is logged in and has the profile screen open, editing her name. *)
Definition ashaEditing : World :=
  withProfile {| userData := Some ashaSnapshot; profileLoading := false;
                 isEditing := true; editedName := Some "  Asha R. Rao ";
                 saving := false |}
    (withUsers [ashaRecord]
       (withStorage (<["userSession" := JSON.stringify ashaSnapshot]>
                       (<["theme" := "dark"]> ∅)) freshWorld)).

(** * Properties *)

(** ** Strings *)

Lemma append_empty_r (s : string) : s +:+ EmptyString = s.
Proof. induction s as [|c s IH]; simpl; [reflexivity | now rewrite IH]. Qed.

Lemma append_assoc (a b c : string) : (a +:+ b) +:+ c = a +:+ (b +:+ c).
Proof. induction a as [|x a IH]; simpl; [reflexivity | now rewrite IH]. Qed.

Lemma string_of_list_ascii_snoc (l : list ascii) (c : ascii) :
  string_of_list_ascii (l ++ [c]) = string_of_list_ascii l +:+ String c EmptyString.
Proof. induction l as [|x l IH]; simpl; [reflexivity | now rewrite IH]. Qed.

Module StringFacts.
Import JSString.

Lemma trimStart_clean (s : string) : startsWithSpace (trimStart s) = false.
Proof.
  induction s as [|c s IH]; simpl; [reflexivity|].
  destruct (isWhiteSpace c) eqn:E; [exact IH | simpl; exact E].
Qed.

Lemma trimStart_split (s : string) :
  exists l : string, allWhiteSpace l = true /\ s = l +:+ trimStart s.
Proof.
  induction s as [|c s (l & Hl & Hs)]; simpl.
  - exists EmptyString. split; reflexivity.
  - destruct (isWhiteSpace c) eqn:E.
    + exists (String c l). simpl. rewrite E, Hl. split; [reflexivity|].
      now rewrite <- Hs.
    + exists EmptyString. split; reflexivity.
Qed.

Lemma trimEnd_clean (s : string) : endsWithSpace (trimEnd s) = false.
Proof.
  induction s as [|c s IH]; simpl; [reflexivity|].
  destruct (isWhiteSpace c) eqn:E; destruct (trimEnd s) eqn:T; simpl;
    try reflexivity; try exact E; exact IH.
Qed.

Lemma trimEnd_split (s : string) :
  exists r : string, allWhiteSpace r = true /\ s = trimEnd s +:+ r.
Proof.
  induction s as [|c s (r & Hr & Hs)]; simpl.
  - exists EmptyString. split; reflexivity.
  - destruct (isWhiteSpace c && isEmpty (trimEnd s)) eqn:E.
    + apply andb_true_iff in E as [Ec Ee].
      destruct (trimEnd s); [|discriminate]. simpl in Hs. subst s.
      exists (String c r). simpl. now rewrite Ec, Hr.
    + exists r. split; [exact Hr|]. simpl. now rewrite <- Hs.
Qed.

Lemma trimEnd_keeps_start (s : string) :
  startsWithSpace s = false -> startsWithSpace (trimEnd s) = false.
Proof.
  destruct s as [|c s]; simpl; [reflexivity|]. intros E. rewrite E. simpl. exact E.
Qed.

(** [trim] takes white space away at both ends, and only that. *)
Lemma trim_clean (s : string) :
  startsWithSpace (trim s) = false /\ endsWithSpace (trim s) = false.
Proof.
  unfold trim. split.
  - apply trimEnd_keeps_start, trimStart_clean.
  - apply trimEnd_clean.
Qed.

Lemma trim_split (s : string) :
  exists l r : string,
    allWhiteSpace l = true /\ allWhiteSpace r = true /\ s = l +:+ trim s +:+ r.
Proof.
  destruct (trimStart_split s) as (l & Hl & Hs).
  destruct (trimEnd_split (trimStart s)) as (r & Hr & Ht).
  exists l, r. unfold trim. repeat split; try assumption.
  now rewrite <- Ht.
Qed.

Lemma lowerChar_idempotent (c : ascii) : lowerChar (lowerChar c) = lowerChar c.
Proof. destruct c as [[] [] [] [] [] [] [] []]; reflexivity. Qed.

(** A lower-cased string is its own lower case. *)
Lemma toLowerCase_idempotent (s : string) : toLowerCase (toLowerCase s) = toLowerCase s.
Proof.
  induction s as [|c s IH]; simpl; [reflexivity|].
  now rewrite lowerChar_idempotent, IH.
Qed.

Lemma toLowerCase_length (s : string) : String.length (toLowerCase s) = String.length s.
Proof. induction s as [|c s IH]; simpl; [reflexivity | now rewrite IH]. Qed.

End StringFacts.

(** ** Reading back what [JSON.stringify] wrote *)

Module JSONFacts.
Import JSON.

#[local] Arguments quote : simpl never.
#[local] Arguments member : simpl never.

(** The scanner reads the escape of a code unit as that code unit. *)
Lemma scan_escapeChar (c : ascii) (buf : list ascii) (r : string) (acc : list token) :
  scan (InString buf) (escapeChar c +:+ r) acc = scan (InString (c :: buf)) r acc.
Proof.
  destruct c as [[] [] [] [] [] [] [] []]; reflexivity.
Qed.

Lemma ofBuffer_cons (c : ascii) (buf : list ascii) (s : string) :
  ofBuffer (c :: buf) +:+ s = ofBuffer buf +:+ String c s.
Proof.
  unfold ofBuffer. simpl rev.
  now rewrite string_of_list_ascii_snoc, append_assoc.
Qed.

Lemma scan_escape (s : string) :
  forall (buf : list ascii) (r : string) (acc : list token),
    scan (InString buf) (escape s +:+ String dquote r) acc
    = scan Between r (TString (ofBuffer buf +:+ s) :: acc).
Proof.
  induction s as [|c s IH]; intros buf r acc.
  - simpl. now rewrite append_empty_r.
  - simpl escape. rewrite append_assoc, scan_escapeChar, IH.
    now rewrite ofBuffer_cons.
Qed.

Lemma scan_quote (s r : string) (acc : list token) :
  scan Between (quote s +:+ r) acc = scan Between r (TString s :: acc).
Proof.
  unfold quote. simpl. rewrite append_assoc. simpl.
  now rewrite scan_escape.
Qed.

Lemma scan_member (kv : string * string) (r : string) (acc : list token) :
  scan Between (member kv +:+ r) acc
  = scan Between r (TString (snd kv) :: TColon :: TString (fst kv) :: acc).
Proof.
  unfold member. rewrite append_assoc, scan_quote.
  change (scan Between (quote (snd kv) +:+ r) (TColon :: TString (fst kv) :: acc)
          = scan Between r (TString (snd kv) :: TColon :: TString (fst kv) :: acc)).
  apply scan_quote.
Qed.

Lemma scan_moreMembers (o : object) :
  forall (r : string) (acc : list token),
    scan Between (moreMembers o +:+ r) acc
    = scan Between r (rev (moreTokens o) ++ acc).
Proof.
  induction o as [|kv o IH]; intros r acc.
  - reflexivity.
  - change (scan Between ((member kv +:+ moreMembers o) +:+ r) (TComma :: acc)
            = scan Between r (rev (moreTokens (kv :: o)) ++ acc)).
    rewrite append_assoc, scan_member, IH. simpl moreTokens.
    simpl rev. now rewrite <- !app_assoc.
Qed.

Lemma scan_stringify (o : object) :
  scan Between (stringify o) [] = Some (tokens o).
Proof.
  unfold stringify. destruct o as [|kv o].
  - reflexivity.
  - change (scan Between
              ((member kv +:+ moreMembers o) +:+ String "}" EmptyString) [TLBrace]
            = Some (tokens (kv :: o))).
    rewrite append_assoc, scan_member, scan_moreMembers.
    simpl scan. now rewrite rev_app_distr, rev_involutive.
Qed.

Lemma distinct_NoDup (l : list string) : distinct l = true <-> List.NoDup l.
Proof.
  induction l as [|k l IH]; simpl.
  - split; [constructor | reflexivity].
  - rewrite andb_true_iff, negb_true_iff, IH. split.
    + intros [Hk Hl]. constructor; [|exact Hl].
      intros Hin. assert (existsb (String.eqb k) l = true) as E.
      { apply existsb_exists. exists k. split; [exact Hin | apply String.eqb_refl]. }
      congruence.
    + intros H. inversion H as [|? ? Hk Hl]; subst. split; [|exact Hl].
      destruct (existsb (String.eqb k) l) eqn:E; [|reflexivity].
      apply existsb_exists in E as (x & Hin & Hx).
      apply String.eqb_eq in Hx. subst x. contradiction.
Qed.

Lemma set_fresh (o : object) (k v : string) :
  ~ In k (keys o) -> set o k v = o ++ [(k, v)].
Proof.
  induction o as [|[k' v'] o IH]; simpl; intros H.
  - reflexivity.
  - destruct (String.eqb_spec k' k) as [->|Hne].
    + exfalso. apply H. now left.
    + rewrite IH; [reflexivity|]. intros Hin. apply H. now right.
Qed.

Lemma parseMembers_tokens (o : object) :
  forall (kv : string * string) (acc : object),
    parseMembers
      (TString (fst kv) :: TColon :: TString (snd kv) :: moreTokens o ++ [TRBrace]) acc
    = Some (setAll (kv :: o) acc).
Proof.
  induction o as [|kv' o IH]; intros kv acc.
  - reflexivity.
  - simpl moreTokens. simpl app.
    change (parseMembers
              (TString (fst kv') :: TColon :: TString (snd kv')
                 :: moreTokens o ++ [TRBrace]) (set acc (fst kv) (snd kv))
            = Some (setAll (kv :: kv' :: o) acc)).
    now rewrite IH.
Qed.

Lemma setAll_distinct (o : object) :
  forall acc : object, List.NoDup (keys (acc ++ o)) -> setAll o acc = acc ++ o.
Proof.
  induction o as [|[k v] o IH]; intros acc H.
  - simpl. now rewrite app_nil_r.
  - simpl. rewrite set_fresh.
    + rewrite IH; rewrite <- app_assoc; [reflexivity | exact H].
    + unfold keys in H. rewrite map_app in H. simpl in H.
      apply NoDup_remove_2 in H. intros Hin. apply H.
      apply in_or_app. now left.
Qed.

(** Reading the text of an object of the fragment gives the object back. *)
Lemma parse_stringify (o : object) :
  ordinary o = true -> parse (stringify o) = Some o.
Proof.
  intros Hord. unfold parse. rewrite scan_stringify.
  assert (parseTokens (tokens o) = Some o) as ->.
  { destruct o as [|kv o]; [reflexivity|].
    unfold tokens, parseTokens.
    destruct (moreTokens o ++ [TRBrace]) eqn:E.
    - destruct (moreTokens o); discriminate.
    - rewrite <- E, parseMembers_tokens, setAll_distinct; [reflexivity|].
      unfold ordinary in Hord. apply andb_true_iff in Hord as [Hd _].
      now apply distinct_NoDup. }
  now rewrite Hord.
Qed.

End JSONFacts.

(** ** Sequencing *)

Lemma bind_ret_l {A B} (a : A) (k : A -> M B) (w : World) :
  bind (ret a) k w = k a w.
Proof. reflexivity. Qed.

Lemma bind_ret_r {A} (m : M A) (w : World) : bind m ret w = m w.
Proof. unfold bind, ret. destruct (m w) as [[a|e] w']; reflexivity. Qed.

Lemma bind_assoc {A B C} (m : M A) (k : A -> M B) (h : B -> M C) (w : World) :
  bind (bind m k) h w = bind m (fun a => bind (k a) h) w.
Proof. unfold bind. destruct (m w) as [[a|e] w']; reflexivity. Qed.

Lemma bind_throw {A B} (e : Error) (k : A -> M B) (w : World) :
  bind (throw e) k w = throw e w.
Proof. reflexivity. Qed.

Lemma tryCatch_throw {A} (e : Error) (handler : Error -> M A) (w : World) :
  tryCatch (throw e) handler w = handler e w.
Proof. reflexivity. Qed.

(** A floating promise never throws into its caller. *)
Lemma floating_normal {A} (m : M A) (w : World) :
  completion (floating m) w = Normal tt.
Proof. unfold completion, floating. destruct (m w) as [[a|e] w']; reflexivity. Qed.

(** ** Objects *)

Module ObjectFacts.
Import JSON.

Lemma get_set_same (o : object) (k v : string) : get (set o k v) k = Some v.
Proof.
  induction o as [|[k' v'] o IH]; simpl.
  - now rewrite String.eqb_refl.
  - destruct (String.eqb k' k) eqn:E; simpl; now rewrite E.
Qed.

Lemma get_set_other (o : object) (k v k' : string) :
  k' <> k -> get (set o k v) k' = get o k'.
Proof.
  intros Hne. induction o as [|[k0 v0] o IH]; simpl.
  - destruct (String.eqb_spec k k') as [->|_]; [contradiction | reflexivity].
  - destruct (String.eqb_spec k0 k) as [->|Hk]; simpl.
    + destruct (String.eqb_spec k k') as [->|_]; [contradiction | reflexivity].
    + now rewrite IH.
Qed.

Lemma in_keys_set (o : object) (k v x : string) :
  In x (keys (set o k v)) -> x = k \/ In x (keys o).
Proof.
  induction o as [|[k' v'] o IH]; simpl.
  - intros [->|[]]. now left.
  - destruct (String.eqb_spec k' k) as [->|Hk]; simpl.
    + intros [<-|H]; [right; now left | right; now right].
    + intros [<-|H]; [right; now left|].
      destruct (IH H) as [->|H']; [now left | right; now right].
Qed.

Lemma NoDup_keys_set (o : object) (k v : string) :
  List.NoDup (keys o) -> List.NoDup (keys (set o k v)).
Proof.
  induction o as [|[k' v'] o IH]; simpl; intros H.
  - constructor; [intros [] | constructor].
  - inversion H as [|? ? Hk Ho]; subst.
    destruct (String.eqb_spec k' k) as [->|Hne]; simpl.
    + now constructor.
    + constructor; [|now apply IH].
      intros Hin. apply in_keys_set in Hin as [->|Hin]; contradiction.
Qed.

Lemma noIndex_keys_set (o : object) (k v : string) :
  isArrayIndex k = false ->
  forallb (fun x => negb (isArrayIndex x)) (keys o) = true ->
  forallb (fun x => negb (isArrayIndex x)) (keys (set o k v)) = true.
Proof.
  intros Hk. induction o as [|[k' v'] o IH]; simpl.
  - intros _. now rewrite Hk.
  - rewrite andb_true_iff. intros [H1 H2].
    destruct (String.eqb k' k); simpl; rewrite H1; simpl; auto.
Qed.

(** Setting a property whose key is no array index keeps an object in the
    fragment. *)
Lemma ordinary_set (o : object) (k v : string) :
  isArrayIndex k = false -> ordinary o = true -> ordinary (set o k v) = true.
Proof.
  unfold ordinary. rewrite !andb_true_iff. intros Hk [Hd Hi]. split.
  - apply JSONFacts.distinct_NoDup, NoDup_keys_set.
    now apply JSONFacts.distinct_NoDup.
  - now apply noIndex_keys_set.
Qed.

(** What [parse] answers is an object of the fragment. *)
Lemma parse_ordinary (t : string) (o : object) :
  parse t = Some o -> ordinary o = true.
Proof.
  unfold parse. destruct (scan Between t []) as [ts|]; [|discriminate].
  destruct (parseTokens ts) as [o'|]; [|discriminate].
  destruct (ordinary o') eqn:E; [|discriminate].
  intros [= <-]. exact E.
Qed.

Lemma stringify_truthy (o : object) : JSString.truthy (stringify o) = true.
Proof. reflexivity. Qed.

End ObjectFacts.

Lemma truthy_true (s : string) : s <> EmptyString -> JSString.truthy s = true.
Proof. destruct s; [congruence | reflexivity]. Qed.

(** ** Running the handlers *)

Ltac handlers :=
  cbv beta iota zeta delta
    [exec completion bind ret throw tryCatch tryFinally tryCatchFinally floating
     modify emit external press JSON_parse
     AsyncStorage.getItem AsyncStorage.setItem AsyncStorage.removeItem
     Alert.alert console.log console.error router.replace
     setInterval clearInterval runCallback
     Database.initDatabase Database.setupSyncListener Database.checkAndSyncData
     Database.createUser
     Home.setIsLoggedIn Home.setUserName Home.setLoading Home.initApp Home.effect
     Home.runCleanup Home.mount Home.unmount Home.handleLogout
     Home.logoutConfirmed Home.handleManualSync
     Profile.setUserData Profile.setLoading Profile.setIsEditing
     Profile.setEditedName Profile.setSaving Profile.loadUserData Profile.spread
     Profile.handleSaveProfile Profile.handleCancelEdit Profile.handleLogout
     Profile.logoutConfirmed Profile.noSessionOk
     Signup.setName Signup.setEmail Signup.setPassword Signup.setConfirmPassword
     Signup.setLoading Signup.setFocus Signup.created Signup.failed
     Signup.handleSignup Signup.successOk Signup.duplicateGoToLogin
     Signup.duplicateOk].

(** ** The profile screen and the session key *)

Section ProfileSave.

Variable w : World.
Variable s : JSON.object.
Variable n : string.

Hypothesis loaded : userData (profile w) = Some s.
Hypothesis edited : editedName (profile w) = Some n.
Hypothesis nonEmpty : JSString.trim n <> EmptyString.

Lemma save_written :
  faults w (calls w) = None ->
  storage (exec Profile.handleSaveProfile w)
  = <["userSession" := JSON.stringify (JSON.set s "name" (JSString.trim n))]>
      (storage w)
  /\ userData (profile (exec Profile.handleSaveProfile w))
     = Some (JSON.set s "name" (JSString.trim n))
  /\ faults (exec Profile.handleSaveProfile w) = faults w
  /\ calls (exec Profile.handleSaveProfile w) = S (calls w).
Proof.
  intros Hok. handlers. rewrite edited, loaded. simpl.
  rewrite (truthy_true _ nonEmpty). simpl. rewrite Hok. simpl.
  repeat split; reflexivity.
Qed.

Lemma save_failed (e : Error) :
  faults w (calls w) = Some e ->
  storage (exec Profile.handleSaveProfile w) = storage w
  /\ users (exec Profile.handleSaveProfile w) = users w
  /\ userData (profile (exec Profile.handleSaveProfile w)) = Some s
  /\ completion Profile.handleSaveProfile w = Normal tt.
Proof.
  intros Hko. handlers. rewrite edited, loaded. simpl.
  rewrite (truthy_true _ nonEmpty). simpl. rewrite Hko. simpl.
  rewrite loaded. repeat split; reflexivity.
Qed.

End ProfileSave.

Lemma load_reads (w : World) (t : string) (o : JSON.object) :
  storage w !! "userSession" = Some t ->
  JSString.truthy t = true ->
  JSON.parse t = Some o ->
  faults w (calls w) = None ->
  userData (profile (exec Profile.loadUserData w)) = Some o
  /\ editedName (profile (exec Profile.loadUserData w)) = JSON.get o "name"
  /\ storage (exec Profile.loadUserData w) = storage w.
Proof.
  intros Hget Ht Hp Hok. handlers. rewrite Hok. simpl.
  rewrite Hget, Ht, Hp. simpl. repeat split; reflexivity.
Qed.

Example asha_snapshot_reads_back :
  JSON.parse (JSON.stringify ashaSnapshot) = Some ashaSnapshot
  /\ JSON.ordinary ashaSnapshot = true.
Proof. split; reflexivity. Qed.



(** C9. Saving a profile edit changes only the name of the stored session
    snapshot: the [id], [email] and [loginTime] of the object persisted under
    the session key are the same before and after the save, whether the
    write goes through or fails. *)
Theorem save_profile_keeps_other_fields (w : World) (t : string) (s : JSON.object)
    (n : string) :
  storage w !! "userSession" = Some t ->
  JSON.parse t = Some s ->
  userData (profile w) = Some s ->
  editedName (profile w) = Some n ->
  JSString.trim n <> EmptyString ->
  exists (t' : string) (s' : JSON.object),
    storage (exec Profile.handleSaveProfile w) !! "userSession" = Some t'
    /\ JSON.parse t' = Some s'
    /\ (forall k : string, k <> "name" -> JSON.get s' k = JSON.get s k)
    /\ JSON.get s' "id" = JSON.get s "id"
    /\ JSON.get s' "email" = JSON.get s "email"
    /\ JSON.get s' "loginTime" = JSON.get s "loginTime".
Proof.
  intros Hget Hparse Hs Hn Hne.
  destruct (faults w (calls w)) as [e|] eqn:Hf.
  - destruct (save_failed w s n Hs Hn Hne e Hf) as (Hst & _).
    exists t, s. rewrite Hst. repeat split; auto.
  - destruct (save_written w s n Hs Hn Hne Hf) as (Hst & _).
    exists (JSON.stringify (JSON.set s "name" (JSString.trim n))),
           (JSON.set s "name" (JSString.trim n)).
    rewrite Hst, lookup_insert_eq. split; [reflexivity|]. split.
    + apply JSONFacts.parse_stringify, ObjectFacts.ordinary_set; [reflexivity|].
      exact (ObjectFacts.parse_ordinary _ _ Hparse).
    + repeat split; intros; apply ObjectFacts.get_set_other; congruence.
Qed.

Lemma save_profile_keeps_other_fields_witness :
  exists (t' : string) (s' : JSON.object),
    storage (exec Profile.handleSaveProfile ashaEditing) !! "userSession" = Some t'
    /\ JSON.parse t' = Some s'
    /\ (forall k : string, k <> "name" -> JSON.get s' k = JSON.get ashaSnapshot k)
    /\ JSON.get s' "id" = JSON.get ashaSnapshot "id"
    /\ JSON.get s' "email" = JSON.get ashaSnapshot "email"
    /\ JSON.get s' "loginTime" = JSON.get ashaSnapshot "loginTime".
Proof.
  apply (save_profile_keeps_other_fields ashaEditing (JSON.stringify ashaSnapshot)
           ashaSnapshot "  Asha R. Rao ");
    try reflexivity.
  vm_compute. discriminate.
Defined.

(** ** Logging out *)

Lemma callsOf_app (a b : list Event) : callsOf (a ++ b) = callsOf a ++ callsOf b.
Proof. unfold callsOf. apply flat_map_app. Qed.

Lemma alertsOf_app (a b : list Event) : alertsOf (a ++ b) = alertsOf a ++ alertsOf b.
Proof. unfold alertsOf. apply flat_map_app. Qed.

Lemma countSync_app (a b : list Event) : countSync (a ++ b) = countSync a + countSync b.
Proof. unfold countSync. now rewrite List.filter_app, length_app. Qed.

Ltac observe :=
  rewrite ?callsOf_app, ?alertsOf_app, ?countSync_app;
  cbn [callsOf alertsOf countSync flat_map List.filter isSync length app];
  rewrite <- ?app_assoc, ?app_nil_r;
  cbn [app].

(** C7. Logging out removes the session key ['userSession'] from storage and
    nothing else: the removal is the only external call made, no row of the
    Local Store is touched and every other storage key keeps its value; the
    session key is gone unless the removal itself is rejected, in which case
    storage is as it was.  This holds for the logout of the home screen and
    for the one of the profile screen, each reached through the button
    Logout of the dialog its [handleLogout] shows; the dialog itself and its
    button Cancel change nothing. *)
Theorem logout_removes_only_session_key (w : World) :
  (storage (exec Home.logoutConfirmed w)
   = match faults w (calls w) with
     | None => delete "userSession" (storage w)
     | Some _ => storage w
     end
   /\ (forall k : string, k <> "userSession" ->
         storage (exec Home.logoutConfirmed w) !! k = storage w !! k)
   /\ users (exec Home.logoutConfirmed w) = users w
   /\ callsOf (trace (exec Home.logoutConfirmed w))
      = callsOf (trace w) ++ [RemoveItem "userSession"])
  /\ (storage (exec Profile.logoutConfirmed w)
      = match faults w (calls w) with
        | None => delete "userSession" (storage w)
        | Some _ => storage w
        end
      /\ (forall k : string, k <> "userSession" ->
            storage (exec Profile.logoutConfirmed w) !! k = storage w !! k)
      /\ users (exec Profile.logoutConfirmed w) = users w
      /\ callsOf (trace (exec Profile.logoutConfirmed w))
         = callsOf (trace w) ++ [RemoveItem "userSession"])
  /\ (delete "userSession" (storage w) !! "userSession" = None
      /\ trace (exec Home.handleLogout w)
         = trace w ++ [AlertShown "Logout" "Are you sure you want to logout?"
                         [ {| text := "Cancel"; onPress := NoAction |};
                           {| text := "Logout"; onPress := HomeLogoutConfirmed |} ]]
      /\ trace (exec Profile.handleLogout w)
         = trace w ++ [AlertShown "Logout" "Are you sure you want to logout?"
                         [ {| text := "Cancel"; onPress := NoAction |};
                           {| text := "Logout"; onPress := ProfileLogoutConfirmed |} ]]
      /\ storage (exec Home.handleLogout w) = storage w
      /\ storage (exec Profile.handleLogout w) = storage w
      /\ exec (press NoAction) w = w
      /\ press HomeLogoutConfirmed = Home.logoutConfirmed
      /\ press ProfileLogoutConfirmed = Profile.logoutConfirmed).
Proof.
  split; [|split; [|split; [apply lookup_delete_eq | repeat split]]].
  - assert (storage (exec Home.logoutConfirmed w)
            = match faults w (calls w) with
              | None => delete "userSession" (storage w)
              | Some _ => storage w
              end) as E.
    { handlers. destruct (faults w (calls w)); reflexivity. }
    rewrite E. repeat split.
    + intros k Hk. destruct (faults w (calls w)); [reflexivity|].
      now apply lookup_delete_ne.
    + handlers. destruct (faults w (calls w)); reflexivity.
    + handlers. destruct (faults w (calls w)); simpl; now observe.
  - assert (storage (exec Profile.logoutConfirmed w)
            = match faults w (calls w) with
              | None => delete "userSession" (storage w)
              | Some _ => storage w
              end) as E.
    { handlers. destruct (faults w (calls w)); reflexivity. }
    rewrite E. repeat split.
    + intros k Hk. destruct (faults w (calls w)); [reflexivity|].
      now apply lookup_delete_ne.
    + handlers. destruct (faults w (calls w)); reflexivity.
    + handlers. destruct (faults w (calls w)); simpl; now observe.
Qed.

(** Asha logs out from the profile screen: the session is gone, the theme
    she chose and her row in the Local Store are still there. *)
Example asha_logs_out :
  storage (exec Profile.logoutConfirmed ashaEditing) !! "userSession" = None
  /\ storage (exec Profile.logoutConfirmed ashaEditing) !! "theme" = Some "dark"
  /\ users (exec Profile.logoutConfirmed ashaEditing) = [ashaRecord].
Proof. repeat split; reflexivity. Qed.

(** C8. A failing operation leaves what was persisted as it was: when the
    write of a profile save throws, storage (the session key with it) and the
    snapshot held by the screen are unchanged; when the removal of a logout
    throws, storage is unchanged; the Local Store is untouched in both
    cases. *)
Theorem failed_operation_keeps_persisted_state (w : World) (s : JSON.object)
    (n : string) (e : Error) :
  userData (profile w) = Some s ->
  editedName (profile w) = Some n ->
  JSString.trim n <> EmptyString ->
  faults w (calls w) = Some e ->
  (storage (exec Profile.handleSaveProfile w) = storage w
   /\ users (exec Profile.handleSaveProfile w) = users w
   /\ userData (profile (exec Profile.handleSaveProfile w)) = Some s
   /\ callsOf (trace (exec Profile.handleSaveProfile w))
      = callsOf (trace w)
        ++ [SetItem "userSession" (JSON.stringify (JSON.set s "name" (JSString.trim n)))])
  /\ (storage (exec Profile.logoutConfirmed w) = storage w
      /\ users (exec Profile.logoutConfirmed w) = users w
      /\ callsOf (trace (exec Profile.logoutConfirmed w))
         = callsOf (trace w) ++ [RemoveItem "userSession"])
  /\ (storage (exec Home.logoutConfirmed w) = storage w
      /\ users (exec Home.logoutConfirmed w) = users w
      /\ callsOf (trace (exec Home.logoutConfirmed w))
         = callsOf (trace w) ++ [RemoveItem "userSession"]).
Proof.
  intros Hs Hn Hne Hko.
  destruct (save_failed w s n Hs Hn Hne e Hko) as (H1 & H2 & H3 & _).
  repeat split; try assumption.
  - handlers. rewrite Hn, Hs. simpl. rewrite (truthy_true _ Hne). simpl.
    rewrite Hko. simpl. now observe.
  - handlers. now rewrite Hko.
  - handlers. now rewrite Hko.
  - handlers. rewrite Hko. simpl. now observe.
  - handlers. now rewrite Hko.
  - handlers. now rewrite Hko.
  - handlers. rewrite Hko. simpl. now observe.
Qed.

Lemma failed_operation_keeps_persisted_state_witness :
  storage (exec Profile.handleSaveProfile (withFaults (failAt 0 networkDown) ashaEditing))
    !! "userSession"
  = Some (JSON.stringify ashaSnapshot).
Proof.
  destruct (failed_operation_keeps_persisted_state
              (withFaults (failAt 0 networkDown) ashaEditing) ashaSnapshot
              "  Asha R. Rao " networkDown) as [(Hst & _) _].
  - reflexivity.
  - reflexivity.
  - vm_compute. discriminate.
  - reflexivity.
  - rewrite Hst. reflexivity.
Defined.

(** ** The home screen: startup, timer, manual synchronisation *)

Lemma mount_runs (w : World) :
  listenerArmed w ->
  homeCleanup (Home.mount w) = None
  /\ now (Home.mount w) = now w
  /\ match faults w (S (S (S (calls w)))) with
     | None =>
         trace (Home.mount w)
         = trace w ++ [Invoked InitDatabase None;
                       ConsoleLog "Database initialized successfully";
                       Invoked (GetItem "userSession") None;
                       Invoked SetupSyncListener None;
                       Invoked CheckAndSyncData None;
                       Invoked (SetInterval (nextTimer w) Home.syncPeriod) None]
         /\ timers (Home.mount w) = timers w ++ [syncTimer w]
     | Some e =>
         trace (Home.mount w)
         = trace w ++ [Invoked InitDatabase None;
                       ConsoleLog "Database initialized successfully";
                       Invoked (GetItem "userSession") None;
                       Invoked SetupSyncListener None;
                       Invoked CheckAndSyncData (Some e);
                       ConsoleError "Error initializing app:" e;
                       AlertShown "Error"
                         "Failed to initialize the application. Please restart the app."
                         []]
         /\ timers (Home.mount w) = timers w
     end.
Proof.
  intros (H0 & H1 & Hread & H2).
  unfold sessionReadable in Hread.
  handlers. rewrite H0. simpl. rewrite H1. simpl.
  destruct (storage w !! "userSession") as [s|] eqn:Hs.
  - destruct (JSString.truthy s) eqn:Ht.
    + destruct (JSON.parse s) as [o|] eqn:Hp; [|discriminate].
      simpl. rewrite H2. simpl.
      destruct (faults w (S (S (S (calls w))))) as [e|]; simpl;
        rewrite <- ?app_assoc; repeat split; reflexivity.
    + simpl. rewrite H2. simpl.
      destruct (faults w (S (S (S (calls w))))) as [e|]; simpl;
        rewrite <- ?app_assoc; repeat split; reflexivity.
  - simpl. rewrite H2. simpl.
    destruct (faults w (S (S (S (calls w))))) as [e|]; simpl;
      rewrite <- ?app_assoc; repeat split; reflexivity.
Qed.

(** When the whole startup goes through, [initApp] resolves to the teardown
    of the timer it installed. *)
Lemma initApp_resolves (w : World) :
  eagerPassCompletes w ->
  completion Home.initApp w = Normal (Some (ClearIntervalOf (nextTimer w))).
Proof.
  intros [(H0 & H1 & Hread & H2) H3].
  unfold sessionReadable in Hread.
  handlers. rewrite H0. simpl. rewrite H1. simpl.
  destruct (storage w !! "userSession") as [s|] eqn:Hs.
  - destruct (JSString.truthy s) eqn:Ht.
    + destruct (JSON.parse s) as [o|] eqn:Hp; [|discriminate].
      simpl. rewrite H2. simpl. rewrite H3. reflexivity.
    + simpl. rewrite H2. simpl. rewrite H3. reflexivity.
  - simpl. rewrite H2. simpl. rewrite H3. reflexivity.
Qed.

(** The callback of the effect returns nothing, whatever [initApp] does. *)
Lemma effect_returns_nothing (w : World) : completion Home.effect w = Normal None.
Proof.
  unfold Home.effect, completion, bind, floating, ret.
  destruct (Home.initApp w) as [[c|e] w']; reflexivity.
Qed.

Lemma clearInterval_removes (w : World) (t : Timer) :
  timers w = [t] ->
  timers (exec (Home.runCleanup (ClearIntervalOf (timerId t))) w) = [].
Proof.
  intros Ht. handlers. simpl. rewrite Ht. simpl. now rewrite Nat.eqb_refl.
Qed.

(** One firing of the periodic callback starts one pass, shows nothing and
    returns to the event loop whatever the pass does. *)
Lemma tick_runs (w : World) :
  countSync (trace (exec (runCallback SyncTick) w)) = S (countSync (trace w))
  /\ alertsOf (trace (exec (runCallback SyncTick) w)) = alertsOf (trace w)
  /\ completion (runCallback SyncTick) w = Normal tt.
Proof.
  handlers. destruct (faults w (calls w)) as [e|]; simpl; observe;
    repeat split; try reflexivity; lia.
Qed.

Lemma fire_counts (n : nat) :
  forall w : World,
    countSync (trace (fire n SyncTick w)) = countSync (trace w) + n.
Proof.
  induction n as [|n IH]; intros w; cbn [fire].
  - lia.
  - rewrite IH. destruct (tick_runs w) as (-> & _). lia.
Qed.

Lemma elapse_single_timer (w : World) (t : Timer) (ms : Z) :
  timers w = [t] ->
  callback t = SyncTick ->
  started t = now w ->
  countSync (trace (elapse ms w)) = countSync (trace w) + Z.to_nat (ms / period t).
Proof.
  intros Ht Hcb Hst. unfold elapse. rewrite Ht. simpl fold_left.
  rewrite Hcb, fire_counts. simpl trace. f_equal.
  unfold firings. rewrite Hst.
  replace (now w + ms - now w)%Z with ms by lia.
  replace (now w - now w)%Z with 0%Z by lia.
  rewrite Zdiv_0_l. f_equal. lia.
Qed.

Lemma manual_runs (w : World) :
  completion Home.handleManualSync w = Normal tt
  /\ countSync (trace (exec Home.handleManualSync w)) = S (countSync (trace w))
  /\ homeLoading (home (exec Home.handleManualSync w)) = false
  /\ trace (exec Home.handleManualSync w)
     = trace w
       ++ match faults w (calls w) with
          | None =>
              [Invoked CheckAndSyncData None;
               AlertShown "Success" "Data synchronized successfully!" []]
          | Some e =>
              [Invoked CheckAndSyncData (Some e);
               ConsoleError "Sync error:" e;
               AlertShown "Error" "Failed to sync data. Please try again." []]
          end.
Proof.
  handlers. simpl. destruct (faults w (calls w)) as [e|]; simpl; observe;
    repeat split; try reflexivity; lia.
Qed.

Lemma mount_counts (w : World) :
  listenerArmed w -> countSync (trace (Home.mount w)) = S (countSync (trace w)).
Proof.
  intros H. destruct (mount_runs w H) as (_ & _ & Hm).
  destruct (faults w (S (S (S (calls w))))) as [e|]; destruct Hm as [-> _];
    observe; lia.
Qed.

Lemma elapse_no_timer (w : World) (ms : Z) :
  timers w = [] -> trace (elapse ms w) = trace w.
Proof. intros H. unfold elapse. now rewrite H. Qed.

(** C3, as stated, fails: when the eager pass of the startup fails, no timer
    is installed and a period later no further pass has been started. *)
Lemma no_timer_after_failed_eager_pass :
  ~ (forall w : World,
       listenerArmed w -> timers w = [] ->
       countSync (trace (elapse (5 * 60 * 1000) (Home.mount w)))
       = S (countSync (trace (Home.mount w)))).
Proof.
  intros H.
  specialize (H (withFaults (failAt 3 networkDown) freshWorld)).
  assert (listenerArmed (withFaults (failAt 3 networkDown) freshWorld)) as Harmed
    by (repeat split; reflexivity).
  specialize (H Harmed eq_refl). vm_compute in H. discriminate.
Qed.

(** C3, amended.  On home-screen startup, once [initDatabase] has completed
    and [setupSyncListener] is registered, [checkAndSyncData] is invoked
    exactly once eagerly.  If that eager pass completes, a repeating timer of
    period exactly 5*60*1000 ms is installed, which has started
    [ms / (5*60*1000)] passes once [ms] milliseconds have gone by; if the
    eager pass fails, no timer is installed and no periodic pass is started.  The manual action starts one pass each
    time it is used. *)
Theorem startup_schedule (w : World) (ms : Z) :
  listenerArmed w ->
  timers w = [] ->
  countSync (trace (Home.mount w)) = S (countSync (trace w))
  /\ match faults w (S (S (S (calls w)))) with
     | None =>
         callsOf (trace (Home.mount w))
         = callsOf (trace w)
           ++ [InitDatabase; GetItem "userSession"; SetupSyncListener;
               CheckAndSyncData; SetInterval (nextTimer w) (5 * 60 * 1000)]
         /\ timers (Home.mount w)
            = [ {| timerId := nextTimer w; period := 5 * 60 * 1000;
                   started := now w; callback := SyncTick |} ]
         /\ countSync (trace (elapse ms (Home.mount w)))
            = countSync (trace (Home.mount w)) + Z.to_nat (ms / (5 * 60 * 1000))
     | Some _ =>
         callsOf (trace (Home.mount w))
         = callsOf (trace w)
           ++ [InitDatabase; GetItem "userSession"; SetupSyncListener;
               CheckAndSyncData]
         /\ timers (Home.mount w) = []
         /\ countSync (trace (elapse ms (Home.mount w)))
            = countSync (trace (Home.mount w))
     end
  /\ (forall w' : World,
        countSync (trace (exec Home.handleManualSync w')) = S (countSync (trace w'))).
Proof.
  intros Harmed Hnone. split; [now apply mount_counts|]. split.
  - destruct (mount_runs w Harmed) as (_ & Hnow & Hm).
    destruct (faults w (S (S (S (calls w))))) as [e|]; destruct Hm as [Htr Htm];
      rewrite Hnone in Htm; simpl in Htm.
    + repeat split.
      * rewrite Htr. now observe.
      * exact Htm.
      * now rewrite elapse_no_timer.
    + repeat split.
      * rewrite Htr. now observe.
      * exact Htm.
      * apply (elapse_single_timer (Home.mount w) (syncTimer w) ms);
          [exact Htm | reflexivity | now rewrite Hnow].
  - intros w'. now destruct (manual_runs w') as (_ & -> & _).
Qed.

Lemma startup_schedule_witness :
  countSync (trace (Home.mount freshWorld)) = 1
  /\ countSync (trace (elapse 299999 (Home.mount freshWorld))) = 1
  /\ countSync (trace (elapse 300000 (Home.mount freshWorld))) = 2
  /\ countSync (trace (elapse 900000 (Home.mount freshWorld))) = 4.
Proof.
  assert (listenerArmed freshWorld) as Harmed by (repeat split; reflexivity).
  destruct (startup_schedule freshWorld 299999 Harmed eq_refl) as (H & (_ & _ & H1) & _).
  destruct (startup_schedule freshWorld 300000 Harmed eq_refl) as (_ & (_ & _ & H2) & _).
  destruct (startup_schedule freshWorld 900000 Harmed eq_refl) as (_ & (_ & _ & H3) & _).
  rewrite H1, H2, H3, H. repeat split; reflexivity.
Defined.

(** C1, as stated, fails: a failure of the startup pass is shown to the user. *)
Lemma startup_failure_is_alerted :
  ~ (forall (w : World) (e : Error),
       eagerPassFails w e -> alertsOf (trace (Home.mount w)) = alertsOf (trace w)).
Proof.
  intros H.
  specialize (H (withFaults (failAt 3 networkDown) freshWorld) networkDown).
  assert (eagerPassFails (withFaults (failAt 3 networkDown) freshWorld) networkDown)
    as Hfails by (repeat split; reflexivity).
  specialize (H Hfails). vm_compute in H. discriminate.
Qed.

(** C1, amended.  A failure of the startup pass or of a manually triggered
    pass is caught and logged and does not leave its handler, and both are
    shown to the user: the manual action shows the retryable alert
    'Failed to sync data. Please try again.', the startup shows the alert
    'Failed to initialize the application. Please restart the app.' and
    installs no timer.  A pass started by the periodic timer shows no
    alert. *)
Theorem sync_failure_reporting (ws wm : World) (e : Error) :
  eagerPassFails ws e ->
  faults wm (calls wm) = Some e ->
  (completion Home.effect ws = Normal None
   /\ trace (Home.mount ws)
      = trace ws ++ [Invoked InitDatabase None;
                     ConsoleLog "Database initialized successfully";
                     Invoked (GetItem "userSession") None;
                     Invoked SetupSyncListener None;
                     Invoked CheckAndSyncData (Some e);
                     ConsoleError "Error initializing app:" e;
                     AlertShown "Error"
                       "Failed to initialize the application. Please restart the app."
                       []]
   /\ timers (Home.mount ws) = timers ws)
  /\ (completion Home.handleManualSync wm = Normal tt
      /\ trace (exec Home.handleManualSync wm)
         = trace wm ++ [Invoked CheckAndSyncData (Some e);
                        ConsoleError "Sync error:" e;
                        AlertShown "Error" "Failed to sync data. Please try again." []]
      /\ homeLoading (home (exec Home.handleManualSync wm)) = false)
  /\ (forall wp : World,
        alertsOf (trace (exec (runCallback SyncTick) wp)) = alertsOf (trace wp)).
Proof.
  intros [Harmed Hfail] Hmanual. split; [|split].
  - destruct (mount_runs ws Harmed) as (_ & _ & Hm). rewrite Hfail in Hm.
    destruct Hm as [Htr Htm]. repeat split; try assumption.
    apply effect_returns_nothing.
  - destruct (manual_runs wm) as (Hc & _ & Hl & Htr). rewrite Hmanual in Htr.
    repeat split; assumption.
  - intros wp. now destruct (tick_runs wp) as (_ & -> & _).
Qed.

Lemma sync_failure_reporting_witness :
  alertsOf (trace (exec Home.handleManualSync (withFaults (failAt 0 networkDown) freshWorld)))
  = [("Error", "Failed to sync data. Please try again.")].
Proof.
  destruct (sync_failure_reporting
              (withFaults (failAt 3 networkDown) freshWorld)
              (withFaults (failAt 0 networkDown) freshWorld) networkDown)
    as (_ & (_ & Htr & _) & _).
  - repeat split; reflexivity.
  - reflexivity.
  - rewrite Htr. reflexivity.
Defined.

(** C2.  What the code does: [initApp] resolves to the teardown that clears
    its timer, and running that teardown would leave no timer; but the
    callback given to [useEffect] returns nothing, so unmounting the home
    screen cancels nothing: [clearInterval] is not called, the timer
    installed at startup is still live and keeps starting passes, one per
    period, after the screen is gone. *)
Theorem unmount_leaves_timer_running (w : World) (ms : Z) :
  eagerPassCompletes w ->
  timers w = [] ->
  completion Home.initApp w = Normal (Some (ClearIntervalOf (nextTimer w)))
  /\ timers (exec (Home.runCleanup (ClearIntervalOf (nextTimer w))) (Home.mount w)) = []
  /\ completion Home.effect w = Normal None
  /\ homeCleanup (Home.mount w) = None
  /\ timers (Home.unmount (Home.mount w)) = [syncTimer w]
  /\ trace (Home.unmount (Home.mount w)) = trace (Home.mount w) ++ [HomeUnmounted]
  /\ callsOf (trace (Home.unmount (Home.mount w))) = callsOf (trace (Home.mount w))
  /\ countSync (trace (elapse ms (Home.unmount (Home.mount w))))
     = countSync (trace (Home.unmount (Home.mount w))) + Z.to_nat (ms / (5 * 60 * 1000)).
Proof.
  intros Hcompletes Hnone. pose proof Hcompletes as [Harmed Hok].
  destruct (mount_runs w Harmed) as (Hclean & Hnow & Hm). rewrite Hok in Hm.
  destruct Hm as [_ Htm]. rewrite Hnone in Htm. simpl in Htm.
  assert (timers (Home.unmount (Home.mount w)) = [syncTimer w]) as Htm'.
  { unfold Home.unmount. rewrite Hclean. exact Htm. }
  assert (trace (Home.unmount (Home.mount w)) = trace (Home.mount w) ++ [HomeUnmounted])
    as Htr.
  { unfold Home.unmount. now rewrite Hclean. }
  split; [now apply initApp_resolves|].
  split; [exact (clearInterval_removes (Home.mount w) (syncTimer w) Htm)|].
  split; [apply effect_returns_nothing|].
  repeat split; try assumption.
  - rewrite Htr. now observe.
  - apply (elapse_single_timer (Home.unmount (Home.mount w)) (syncTimer w) ms);
      [exact Htm' | reflexivity | ].
    unfold Home.unmount. rewrite Hclean. simpl. now rewrite Hnow.
Qed.

Lemma unmount_leaves_timer_running_witness :
  trace (elapse (5 * 60 * 1000) (Home.unmount (Home.mount freshWorld)))
  = [Invoked InitDatabase None;
     ConsoleLog "Database initialized successfully";
     Invoked (GetItem "userSession") None;
     Invoked SetupSyncListener None;
     Invoked CheckAndSyncData None;
     Invoked (SetInterval 0 (5 * 60 * 1000)) None;
     HomeUnmounted;
     Invoked CheckAndSyncData None]
  /\ countSync (trace (elapse (5 * 60 * 1000) (Home.unmount (Home.mount freshWorld))))
     = countSync (trace (Home.unmount (Home.mount freshWorld))) + 1.
Proof.
  split; [reflexivity|].
  destruct (unmount_leaves_timer_running freshWorld (5 * 60 * 1000))
    as (_ & _ & _ & _ & _ & _ & _ & H).
  - repeat split; reflexivity.
  - reflexivity.
  - exact H.
Defined.

(** ** The signup screen *)

(** What [validateEmail] lets through: one [@], no white space, and a dot
    with something on both sides after the [@]. *)
Example validateEmail_accepts :
  Signup.validateEmail "asha@x.com" = true
  /\ Signup.validateEmail "a.rao@mail.example.org" = true.
Proof. split; reflexivity. Qed.

Example validateEmail_rejects :
  Signup.validateEmail "asha@x" = false
  /\ Signup.validateEmail "asha rao@x.com" = false
  /\ Signup.validateEmail "asha@rao@x.com" = false
  /\ Signup.validateEmail "@x.com" = false
  /\ Signup.validateEmail "asha@.com" = false
  /\ Signup.validateEmail "asha@x." = false
  /\ Signup.validateEmail EmptyString = false.
Proof. repeat split; reflexivity. Qed.

Example asha_submission_is_valid : validSubmission ashaForm = true.
Proof. reflexivity. Qed.

Lemma validSubmission_checks (s : SignupState) :
  validSubmission s = true ->
  Signup.filled s = true
  /\ Signup.validateEmail (JSString.trim (email s)) = true
  /\ String.eqb (password s) (confirmPassword s) = true
  /\ (String.length (password s) <? 6)%nat = false.
Proof.
  unfold validSubmission. rewrite !andb_true_iff, negb_true_iff. tauto.
Qed.

(** A submission that passes the checks goes on to [createUser]. *)
Lemma handleSignup_valid (w : World) :
  validSubmission (signup w) = true ->
  Signup.handleSignup w
  = (Signup.setLoading true ;;
     tryCatch
       (userId <- Database.createUser (JSString.trim (name (signup w)))
                    (JSString.toLowerCase (JSString.trim (email (signup w))))
                    (password (signup w)) ;;
        Signup.created userId)
       Signup.failed) w.
Proof.
  intros H. apply validSubmission_checks in H as (H1 & H2 & H3 & H4).
  unfold Signup.handleSignup. now rewrite H1, H2, H3, H4.
Qed.

Lemma startsWith_iff (p : string) :
  forall s : string,
    JSString.startsWith s p = true <-> exists b : string, s = p +:+ b.
Proof.
  induction p as [|a p IH]; intros s; simpl.
  - split; [intros _; now exists s | now destruct s].
  - destruct s as [|c s]; simpl.
    + split; [discriminate | intros (b & E); discriminate].
    + rewrite andb_true_iff, IH, Ascii.eqb_eq. split.
      * intros (-> & b & ->). now exists b.
      * intros (b & E). injection E as -> ->. split; [reflexivity | now exists b].
Qed.

(** [includes] finds the text wherever it stands. *)
Lemma includes_iff (p s : string) :
  JSString.includes s p = true <-> exists a b : string, s = a +:+ p +:+ b.
Proof.
  split.
  - induction s as [|c s IH]; intros H.
    + change (JSString.startsWith EmptyString p || false = true) in H.
      apply orb_true_iff in H as [H|H]; [|discriminate].
      apply startsWith_iff in H as (b & E). now exists EmptyString, b.
    + change (JSString.startsWith (String c s) p || JSString.includes s p = true) in H.
      apply orb_true_iff in H as [H|H].
      * apply startsWith_iff in H as (b & E). now exists EmptyString, b.
      * destruct (IH H) as (a & b & ->). now exists (String c a), b.
  - intros (a & b & ->). induction a as [|c a IH].
    + assert (JSString.startsWith (p +:+ b) p = true) as E
        by (apply startsWith_iff; now exists b).
      change (EmptyString +:+ p +:+ b) with (p +:+ b).
      destruct (p +:+ b) as [|c r].
      * change (JSString.startsWith EmptyString p || false = true). now rewrite E.
      * change (JSString.startsWith (String c r) p || JSString.includes r p = true).
        now rewrite E.
    + change (JSString.startsWith (String c (a +:+ p +:+ b)) p
              || JSString.includes (a +:+ p +:+ b) p = true).
      rewrite IH. apply orb_true_r.
Qed.

(** The [catch] block tells the two kinds of failure apart by the substring. *)
Lemma failed_runs (w : World) (err : Error) :
  trace (exec (Signup.failed err) w)
  = trace w
    ++ [ConsoleError "Signup error:" err;
        if JSString.includes
             (messageOr err "An error occurred during signup. Please try again.")
             "already exists"
        then AlertShown "Email Already Exists"
               (messageOr err "An error occurred during signup. Please try again.")
               [ {| text := "Go to Login"; onPress := SignupDuplicateGoToLogin |};
                 {| text := "OK"; onPress := SignupDuplicateOk |} ]
        else AlertShown "Signup Failed"
               (messageOr err "An error occurred during signup. Please try again.") []]
  /\ users (exec (Signup.failed err) w) = users w
  /\ storage (exec (Signup.failed err) w) = storage w
  /\ completion (Signup.failed err) w = Normal tt.
Proof.
  handlers.
  destruct (JSString.includes
              (messageOr err "An error occurred during signup. Please try again.")
              "already exists");
    simpl; rewrite <- ?app_assoc; repeat split; reflexivity.
Qed.




Lemma nextId_positive (us : list UserRecord) : (0 < Database.nextId us)%Z.
Proof. unfold Database.nextId. induction us as [|u us IH]; simpl; lia. Qed.

(** C5.  A submission that passes the checks, with an email no row has, calls
    [createUser] with the trimmed name, the trimmed email in lower case and
    the password as typed; the call succeeds, the row is stored with the
    normalised email (so that the email is taken from then on), and the
    identifier it returns, which is not zero, lets the alert of success
    appear, whose button leads to the login screen.  An identifier that is
    zero would take the failure path instead.  The name sent has no white
    space at its ends, the email sent is its own lower case, and
    'ASHA@x.com' becomes 'asha@x.com'. *)
Theorem signup_creates_normalised_user (w : World) :
  validSubmission (signup w) = true ->
  Database.emailTaken (users w)
    (JSString.toLowerCase (JSString.trim (email (signup w)))) = false ->
  faults w (calls w) = None ->
  let created := exec Signup.handleSignup w in
  trace created
  = trace w
    ++ [Invoked (CreateUser (JSString.trim (name (signup w)))
                   (JSString.toLowerCase (JSString.trim (email (signup w))))
                   (password (signup w)))
          None;
        AlertShown "Success" "Account created successfully!"
          [ {| text := "OK"; onPress := SignupSuccessOk |} ]]
  /\ users created
     = users w
       ++ [ {| userId := Database.nextId (users w);
               userRecordName := JSString.trim (name (signup w));
               userEmail := JSString.toLowerCase (JSString.trim (email (signup w)));
               userPassword := password (signup w) |} ]
  /\ Database.nextId (users w) <> 0%Z
  /\ Database.emailTaken (users created)
       (JSString.toLowerCase (JSString.trim (email (signup w)))) = true
  /\ JSString.toLowerCase (JSString.toLowerCase (JSString.trim (email (signup w))))
     = JSString.toLowerCase (JSString.trim (email (signup w)))
  /\ JSString.startsWithSpace (JSString.trim (name (signup w))) = false
  /\ JSString.endsWithSpace (JSString.trim (name (signup w))) = false
  /\ trace (exec (press SignupSuccessOk) created)
     = trace created ++ [RouterReplace "/login"]
  /\ (forall w' : World,
        alertsOf (trace (exec (tryCatch (Signup.created {| insertId := 0 |})
                                 Signup.failed) w'))
        = alertsOf (trace w')
          ++ [("Signup Failed", "Failed to create account. Please try again.")])
  /\ JSString.toLowerCase (JSString.trim "ASHA@x.com") = "asha@x.com".
Proof.
  intros Hvalid Hfree Hok created.
  pose proof (nextId_positive (users w)) as Hpos.
  assert ((Database.nextId (users w) =? 0)%Z = false) as Hnz by lia.
  assert (users created
          = users w
            ++ [ {| userId := Database.nextId (users w);
                    userRecordName := JSString.trim (name (signup w));
                    userEmail := JSString.toLowerCase (JSString.trim (email (signup w)));
                    userPassword := password (signup w) |} ]) as Husers.
  { subst created. unfold exec. rewrite (handleSignup_valid w Hvalid).
    handlers. simpl. rewrite Hok, Hfree. simpl. rewrite Hnz. reflexivity. }
  split; [|split; [|split; [|split; [|split; [|split; [|split; [|split; [|split]]]]]]]].
  - subst created. unfold exec. rewrite (handleSignup_valid w Hvalid).
    handlers. simpl. rewrite Hok, Hfree. simpl. rewrite Hnz. simpl.
    rewrite <- ?app_assoc. reflexivity.
  - exact Husers.
  - lia.
  - rewrite Husers. unfold Database.emailTaken. rewrite existsb_app. simpl.
    rewrite String.eqb_refl. now rewrite orb_true_r.
  - apply StringFacts.toLowerCase_idempotent.
  - apply StringFacts.trim_clean.
  - apply StringFacts.trim_clean.
  - handlers. reflexivity.
  - intros w'. handlers. simpl. now observe.
  - reflexivity.
Qed.

Lemma signup_creates_normalised_user_witness :
  users (exec Signup.handleSignup (withSignup ashaForm freshWorld)) = [ashaRecord].
Proof.
  destruct (signup_creates_normalised_user (withSignup ashaForm freshWorld))
    as (_ & Hu & _).
  - reflexivity.
  - reflexivity.
  - reflexivity.
  - rewrite Hu. reflexivity.
Defined.

(** C10, as stated, fails: the choice 'OK' leaves the password typed. *)
Lemma duplicate_ok_keeps_password :
  ~ (forall (a : Action) (w : World),
       a = SignupDuplicateGoToLogin \/ a = SignupDuplicateOk ->
       email (signup (exec (press a) w)) = EmptyString
       /\ password (signup (exec (press a) w)) = EmptyString
       /\ confirmPassword (signup (exec (press a) w)) = EmptyString
       /\ name (signup (exec (press a) w)) = name (signup w)).
Proof.
  intros H.
  destruct (H SignupDuplicateOk (withSignup ashaForm freshWorld)) as (_ & Hp & _).
  - now right.
  - vm_compute in Hp. discriminate.
Qed.

(** C10, amended.  After a duplicate-email error, 'Go to Login' clears the
    email, the password and its confirmation, keeps the name and goes to the
    login screen; 'OK' clears the email only, keeps the name, the password
    and its confirmation, puts the focus on the email field and goes
    nowhere. *)
Theorem duplicate_recovery_choices (w : World) :
  signup (exec (press SignupDuplicateGoToLogin) w)
  = {| name := name (signup w); email := EmptyString; password := EmptyString;
       confirmPassword := EmptyString; signupLoading := signupLoading (signup w);
       emailInput := emailInput (signup w) |}
  /\ trace (exec (press SignupDuplicateGoToLogin) w) = trace w ++ [RouterReplace "/login"]
  /\ signup (exec (press SignupDuplicateOk) w)
     = {| name := name (signup w); email := EmptyString;
          password := password (signup w);
          confirmPassword := confirmPassword (signup w);
          signupLoading := signupLoading (signup w);
          emailInput := emailInput (signup w) |}
  /\ trace (exec (press SignupDuplicateOk) w)
     = trace w ++ (if emailInput (signup w) then [FocusEmail] else []).
Proof.
  repeat split.
  - handlers. simpl. destruct (emailInput (signup w)); reflexivity.
  - handlers. simpl. destruct (emailInput (signup w)); simpl;
      [reflexivity | now rewrite app_nil_r].
Qed.

(** * Further properties of the screens *)

(** ** The matcher and the addresses it accepts *)

Lemma append_empty_both (a b : string) :
  a +:+ b = EmptyString -> a = EmptyString /\ b = EmptyString.
Proof. destruct a; simpl; [auto | discriminate]. Qed.

Lemma matches_seq (r1 r2 : RegExp.regex) (s : string) :
  matches (RegExp.Seq r1 r2) s
  <-> exists s1 s2 : string, s = s1 +:+ s2 /\ matches r1 s1 /\ matches r2 s2.
Proof.
  split.
  - intros H. inversion H; subst. eauto.
  - intros (s1 & s2 & -> & H1 & H2). now constructor.
Qed.

Lemma nullable_matches (r : RegExp.regex) :
  RegExp.nullable r = true <-> matches r EmptyString.
Proof.
  split.
  - induction r; simpl; intros H; try discriminate.
    + constructor.
    + apply andb_true_iff in H as [H1 H2].
      change EmptyString with (EmptyString +:+ EmptyString). constructor; auto.
    + apply orb_true_iff in H as [H|H]; [apply MAltL | apply MAltR]; auto.
    + constructor.
  - intros H. remember EmptyString as s eqn:E.
    induction H; simpl; try reflexivity; try discriminate.
    + apply append_empty_both in E as [-> ->]. rewrite IHmatches1, IHmatches2; auto.
    + rewrite IHmatches; auto.
    + rewrite IHmatches; auto. apply orb_true_r.
Qed.

Lemma matches_deriv_sound (c : ascii) (r : RegExp.regex) :
  forall s : string, matches (RegExp.deriv c r) s -> matches r (String c s).
Proof.
  induction r; simpl; intros s H.
  - inversion H.
  - inversion H.
  - destruct (p c) eqn:E; inversion H; subst. now constructor.
  - destruct (RegExp.nullable r1) eqn:N.
    + inversion H; subst.
      * apply matches_seq in H3 as (s1 & s2 & -> & H1 & H2).
        change (String c (s1 +:+ s2)) with (String c s1 +:+ s2).
        constructor; auto.
      * change (String c s) with (EmptyString +:+ String c s).
        constructor; [now apply nullable_matches | auto].
    + apply matches_seq in H as (s1 & s2 & -> & H1 & H2).
      change (String c (s1 +:+ s2)) with (String c s1 +:+ s2).
      constructor; auto.
  - inversion H; subst; [apply MAltL | apply MAltR]; auto.
  - apply matches_seq in H as (s1 & s2 & -> & H1 & H2).
    change (String c (s1 +:+ s2)) with (String c s1 +:+ s2).
    constructor; auto.
Qed.

Lemma matches_deriv_complete (r : RegExp.regex) (s0 : string) :
  matches r s0 ->
  forall (c : ascii) (s : string), s0 = String c s -> matches (RegExp.deriv c r) s.
Proof.
  induction 1 as [|p c' Hp|r1 r2 s1 s2 H1 IH1 H2 IH2|r1 r2 s0 H IH|r1 r2 s0 H IH
                  |r|r s1 s2 H1 IH1 H2 IH2];
    intros c s E; simpl.
  - discriminate.
  - injection E as -> <-. rewrite Hp. constructor.
  - destruct s1 as [|c1 s1'].
    + simpl in E. subst s2.
      assert (RegExp.nullable r1 = true) as -> by now apply nullable_matches.
      apply MAltR. now apply IH2.
    + simpl in E. injection E as -> <-.
      assert (matches (RegExp.Seq (RegExp.deriv c r1) r2) (s1' +:+ s2)) as Hseq
        by (constructor; auto).
      destruct (RegExp.nullable r1); [now apply MAltL | exact Hseq].
  - apply MAltL. now apply IH.
  - apply MAltR. now apply IH.
  - discriminate.
  - destruct s1 as [|c1 s1'].
    + simpl in E. now apply IH2.
    + simpl in E. injection E as -> <-. constructor; auto.
Qed.

(** The matcher decides what the expression matches. *)
Lemma test_matches (s : string) :
  forall r : RegExp.regex, RegExp.test r s = true <-> matches r s.
Proof.
  induction s as [|c s IH]; intros r; simpl.
  - apply nullable_matches.
  - rewrite IH. split.
    + apply matches_deriv_sound.
    + intros H. now apply (matches_deriv_complete r (String c s)).
Qed.

Lemma matches_class (p : ascii -> bool) (s : string) :
  matches (RegExp.Class p) s <-> exists c : ascii, s = String c EmptyString /\ p c = true.
Proof.
  split.
  - intros H. inversion H; subst. eauto.
  - intros (c & -> & Hp). now constructor.
Qed.

Lemma matches_star_class (p : ascii -> bool) (s : string) :
  matches (RegExp.Star (RegExp.Class p)) s <-> allChars p s = true.
Proof.
  split.
  - intros H. remember (RegExp.Star (RegExp.Class p)) as r eqn:E.
    induction H; try discriminate.
    + reflexivity.
    + injection E as ->. apply matches_class in H as (c & -> & Hp).
      simpl. rewrite Hp. now apply IHmatches2.
  - induction s as [|c s IH]; simpl; intros H.
    + constructor.
    + apply andb_true_iff in H as [Hp Hs].
      change (String c s) with (String c EmptyString +:+ s).
      constructor; [now constructor | auto].
Qed.

Lemma matches_plus_class (p : ascii -> bool) (s : string) :
  matches (RegExp.Plus (RegExp.Class p)) s
  <-> s <> EmptyString /\ allChars p s = true.
Proof.
  unfold RegExp.Plus. rewrite matches_seq. split.
  - intros (s1 & s2 & -> & H1 & H2).
    apply matches_class in H1 as (c & -> & Hp).
    apply matches_star_class in H2. simpl. rewrite Hp, H2. split; [discriminate | reflexivity].
  - intros [Hne H]. destruct s as [|c s]; [congruence|].
    simpl in H. apply andb_true_iff in H as [Hp Hs].
    exists (String c EmptyString), s. split; [reflexivity|]. split.
    + now constructor.
    + now apply matches_star_class.
Qed.

Lemma matches_chr (c : ascii) (s : string) :
  matches (RegExp.Chr c) s <-> s = String c EmptyString.
Proof.
  unfold RegExp.Chr. rewrite matches_class. split.
  - intros (c' & -> & H). apply Ascii.eqb_eq in H. now subst.
  - intros ->. exists c. split; [reflexivity | apply Ascii.eqb_refl].
Qed.

(** X1.  [validateEmail] accepts exactly the texts of the shape
    [a@b.c] where [a], [b] and [c] are not empty and hold neither
    white space nor [@]. *)
Theorem validateEmail_shape (e : string) :
  Signup.validateEmail e = true
  <-> exists a b c : string,
        addressPart a /\ addressPart b /\ addressPart c
        /\ e = a +:+ "@" +:+ b +:+ "." +:+ c.
Proof.
  unfold Signup.validateEmail, Signup.emailRegex, addressPart.
  rewrite test_matches. split.
  - intros H.
    apply matches_seq in H as (a & r1 & -> & Ha & H).
    apply matches_seq in H as (at' & r2 & -> & Hat & H).
    apply matches_seq in H as (b & r3 & -> & Hb & H).
    apply matches_seq in H as (dot & c & -> & Hdot & Hc).
    apply matches_chr in Hat, Hdot. subst.
    apply matches_plus_class in Ha, Hb, Hc.
    exists a, b, c. repeat split; tauto.
  - intros (a & b & c & Ha & Hb & Hc & ->).
    apply matches_plus_class in Ha, Hb, Hc.
    apply matches_seq. exists a, ("@" +:+ b +:+ "." +:+ c). repeat split; auto.
    apply matches_seq. exists "@", (b +:+ "." +:+ c). repeat split.
    { now apply matches_chr. }
    apply matches_seq. exists b, ("." +:+ c). repeat split; auto.
    apply matches_seq. exists ".", c. repeat split; auto.
    now apply matches_chr.
Qed.

(** ** The home screen, whatever fails *)

Ltac screens :=
  cbv beta iota zeta delta
    [Signup.initializeApp Signup.effect Profile.onChangeText Profile.toggleEditing];
  handlers.

Ltac by_faults :=
  repeat match goal with
         | |- context [match faults ?w ?n with _ => _ end] =>
             let F := fresh "F" in destruct (faults w n) eqn:F; simpl
         end.

Ltac by_session w :=
  let t := fresh "t" in
  let Hs := fresh "Hsession" in
  let Ht := fresh "Htruthy" in
  let Hp := fresh "Hparse" in
  destruct (storage w !! "userSession") as [t|] eqn:Hs; simpl;
  [destruct (JSString.truthy t) eqn:Ht; simpl;
   [destruct (JSON.parse t) eqn:Hp; simpl|]|].

Lemma rejectionsOf_app (a b : list Event) :
  rejectionsOf (a ++ b) = rejectionsOf a ++ rejectionsOf b.
Proof. unfold rejectionsOf. apply flat_map_app. Qed.

Lemma errorsLogged_app (a b : list Event) :
  errorsLogged (a ++ b) = errorsLogged a ++ errorsLogged b.
Proof. unfold errorsLogged. apply flat_map_app. Qed.

Ltac observe_all :=
  rewrite ?callsOf_app, ?alertsOf_app, ?countSync_app, ?rejectionsOf_app,
    ?errorsLogged_app;
  cbn [callsOf alertsOf countSync rejectionsOf errorsLogged flat_map List.filter
       isSync length app];
  rewrite <- ?app_assoc, ?app_nil_r;
  cbn [app].

(** X2.  Whatever fails during startup, [initApp] does not reject: the home
    screen leaves its loading state and no rejection stays unhandled.  The
    screen itself writes nothing on the way: none of the calls it makes is
    [setItem], [removeItem] or [createUser].  (This holds on the path of a
    stored text that is read and on the path of one that is refused.) *)
Theorem startup_always_settles (w : World) :
  (exists c : option Cleanup, completion Home.initApp w = Normal c)
  /\ homeLoading (home (Home.mount w)) = false
  /\ Home.render (home (Home.mount w)) <> Home.Initializing
  /\ rejectionsOf (trace (Home.mount w)) = rejectionsOf (trace w)
  /\ (exists made : list Call,
        callsOf (trace (Home.mount w)) = callsOf (trace w) ++ made
        /\ existsb isWrite made = false).
Proof.
  assert ((exists c : option Cleanup, completion Home.initApp w = Normal c)
          /\ homeLoading (home (Home.mount w)) = false
          /\ rejectionsOf (trace (Home.mount w)) = rejectionsOf (trace w)
          /\ (exists made : list Call,
                callsOf (trace (Home.mount w)) = callsOf (trace w) ++ made
                /\ existsb isWrite made = false)) as (H1 & H2 & H3 & H4).
  { handlers.
    destruct (faults w (calls w)) eqn:F0; simpl;
      [|destruct (faults w (S (calls w))) eqn:F1; simpl; [|by_session w; by_faults]];
      observe_all;
      (split; [eauto | split; [reflexivity | split; [reflexivity |]]]);
      eexists; (split; [reflexivity | reflexivity]). }
  repeat split; try assumption.
  unfold Home.render. rewrite H2.
  destruct (isLoggedIn (home (Home.mount w))) as [[|]|]; discriminate.
Qed.

Lemma mount_reads_session (w : World) (t : string) (o : JSON.object) :
  faults w (calls w) = None ->
  faults w (S (calls w)) = None ->
  storage w !! "userSession" = Some t ->
  JSString.truthy t = true ->
  JSON.parse t = Some o ->
  isLoggedIn (home (Home.mount w)) = Some true
  /\ userName (home (Home.mount w)) = JSON.get o "name"
  /\ homeLoading (home (Home.mount w)) = false.
Proof.
  intros F0 F1 Hs Ht Hp.
  handlers. rewrite F0. simpl. rewrite F1. simpl. rewrite Hs, Ht, Hp. simpl.
  by_faults; repeat split; reflexivity.
Qed.

Lemma mount_finds_no_session (w : World) :
  faults w (calls w) = None ->
  faults w (S (calls w)) = None ->
  noSession w = true ->
  isLoggedIn (home (Home.mount w)) = Some false
  /\ userName (home (Home.mount w)) = userName (home w)
  /\ homeLoading (home (Home.mount w)) = false.
Proof.
  intros F0 F1 N. unfold noSession in N.
  handlers. rewrite F0. simpl. rewrite F1. simpl.
  destruct (storage w !! "userSession") as [t|]; simpl.
  - destruct (JSString.truthy t); [discriminate|]. simpl.
    by_faults; repeat split; reflexivity.
  - by_faults; repeat split; reflexivity.
Qed.

(** X3.  Once [initDatabase] has completed and the session key has been
    read, a stored snapshot logs the user in: [isLoggedIn] is [true],
    [userName] is the name of the snapshot and the screen greets that name,
    even when the listener or the eager pass fails afterwards. *)
Theorem startup_restores_session (w : World) (t : string) (o : JSON.object) :
  faults w (calls w) = None ->
  faults w (S (calls w)) = None ->
  storage w !! "userSession" = Some t ->
  JSString.truthy t = true ->
  JSON.parse t = Some o ->
  isLoggedIn (home (Home.mount w)) = Some true
  /\ userName (home (Home.mount w)) = JSON.get o "name"
  /\ Home.render (home (Home.mount w)) = Home.Welcome (JSON.get o "name").
Proof.
  intros F0 F1 Hs Ht Hp.
  destruct (mount_reads_session w t o F0 F1 Hs Ht Hp) as (H1 & H2 & H3).
  repeat split; try assumption.
  unfold Home.render. now rewrite H3, H1, H2.
Qed.

Lemma startup_restores_session_witness :
  Home.render (home (Home.mount (withFaults (failAt 3 networkDown) ashaEditing)))
  = Home.Welcome (Some "Asha Rao").
Proof.
  apply (startup_restores_session (withFaults (failAt 3 networkDown) ashaEditing)
           (JSON.stringify ashaSnapshot) ashaSnapshot); reflexivity.
Defined.

(** X4.  Once [initDatabase] has completed and the session key has been
    read, a missing session, or one that is the empty text, leaves the user
    logged out: [isLoggedIn] is [false] and the landing screen is shown. *)
Theorem startup_without_session (w : World) :
  faults w (calls w) = None ->
  faults w (S (calls w)) = None ->
  noSession w = true ->
  isLoggedIn (home (Home.mount w)) = Some false
  /\ userName (home (Home.mount w)) = userName (home w)
  /\ Home.render (home (Home.mount w)) = Home.Landing.
Proof.
  intros F0 F1 N.
  destruct (mount_finds_no_session w F0 F1 N) as (H1 & H2 & H3).
  repeat split; try assumption.
  unfold Home.render. now rewrite H3, H1.
Qed.

Lemma startup_without_session_witness :
  Home.render (home (Home.mount freshWorld)) = Home.Landing.
Proof. apply (startup_without_session freshWorld); reflexivity. Defined.

(** X5.  When [initDatabase] fails, the startup stops there: the session key
    is not read, no listener is registered, no pass is started and no timer
    is installed; the failure is logged and alerted, and a stored session is
    not restored ([isLoggedIn] and [userName] keep their values, so a fresh
    screen shows the landing screen). *)
Theorem startup_stops_when_database_fails (w : World) (e : Error) :
  faults w (calls w) = Some e ->
  trace (Home.mount w)
  = trace w ++ [Invoked InitDatabase (Some e);
                ConsoleError "Error initializing app:" e;
                AlertShown "Error"
                  "Failed to initialize the application. Please restart the app." []]
  /\ timers (Home.mount w) = timers w
  /\ isLoggedIn (home (Home.mount w)) = isLoggedIn (home w)
  /\ userName (home (Home.mount w)) = userName (home w)
  /\ Home.render (home (Home.mount w))
     = match isLoggedIn (home w) with
       | Some true => Home.Welcome (userName (home w))
       | _ => Home.Landing
       end.
Proof.
  intros F0.
  assert (homeLoading (home (Home.mount w)) = false
          /\ isLoggedIn (home (Home.mount w)) = isLoggedIn (home w)
          /\ userName (home (Home.mount w)) = userName (home w)) as (H1 & H2 & H3).
  { handlers. rewrite F0. simpl. repeat split; reflexivity. }
  split; [|split; [|split; [|split]]]; try assumption.
  - handlers. rewrite F0. simpl. now rewrite <- ?app_assoc.
  - handlers. now rewrite F0.
  - unfold Home.render. now rewrite H1, H2, H3.
Qed.

Lemma startup_stops_when_database_fails_witness :
  callsOf (trace (Home.mount (withFaults (failAt 0 networkDown) ashaEditing)))
  = [InitDatabase]
  /\ Home.render (home (Home.mount (withFaults (failAt 0 networkDown) ashaEditing)))
     = Home.Landing.
Proof.
  destruct (startup_stops_when_database_fails
              (withFaults (failAt 0 networkDown) ashaEditing) networkDown)
    as (Htr & _ & _ & _ & Hr); [reflexivity|].
  split; [rewrite Htr; reflexivity | rewrite Hr; reflexivity].
Defined.

(** X6.  The logout of the home screen: when the removal goes through, the
    screen forgets the user ([isLoggedIn] false, [userName] empty), confirms
    with an alert and shows the landing screen (unless it is loading); when
    the removal
    is rejected, the screen keeps its state, logs the error and alerts the
    failure.  The handler never rejects. *)
Theorem home_logout_outcome (w : World) :
  completion Home.logoutConfirmed w = Normal tt
  /\ match faults w (calls w) with
     | None =>
         isLoggedIn (home (exec Home.logoutConfirmed w)) = Some false
         /\ userName (home (exec Home.logoutConfirmed w)) = Some EmptyString
         /\ trace (exec Home.logoutConfirmed w)
            = trace w ++ [Invoked (RemoveItem "userSession") None;
                          AlertShown "Success"
                            "You have been logged out successfully." []]
         /\ Home.render (home (exec Home.logoutConfirmed w))
            = (if homeLoading (home w) then Home.Initializing else Home.Landing)
     | Some e =>
         home (exec Home.logoutConfirmed w) = home w
         /\ trace (exec Home.logoutConfirmed w)
            = trace w ++ [Invoked (RemoveItem "userSession") (Some e);
                          ConsoleError "Logout error:" e;
                          AlertShown "Error" "Failed to logout. Please try again." []]
     end.
Proof.
  split.
  - handlers. destruct (faults w (calls w)); reflexivity.
  - handlers. destruct (faults w (calls w)) as [e|]; simpl; rewrite <- ?app_assoc;
      repeat split; reflexivity.
Qed.

(** X7.  The manual synchronisation does nothing of its own but start the
    pass and report: its only external call is [checkAndSyncData] (no
    storage call, no [createUser], no timer), it does not reject, it keeps
    the login state, leaves the loading flag off, so that the screen comes
    back from the indicator to the view it had, and shows exactly one alert:
    the success or, after logging the error, the failure. *)
Theorem manual_sync_frame (w : World) :
  let w' := exec Home.handleManualSync w in
  completion Home.handleManualSync w = Normal tt
  /\ isLoggedIn (home w') = isLoggedIn (home w)
  /\ userName (home w') = userName (home w)
  /\ homeLoading (home w') = false
  /\ Home.render (home w')
     = match isLoggedIn (home w) with
       | Some true => Home.Welcome (userName (home w))
       | _ => Home.Landing
       end
  /\ callsOf (trace w') = callsOf (trace w) ++ [CheckAndSyncData]
  /\ alertsOf (trace w')
     = alertsOf (trace w)
       ++ [match faults w (calls w) with
           | None => ("Success", "Data synchronized successfully!")
           | Some _ => ("Error", "Failed to sync data. Please try again.")
           end]
  /\ errorsLogged (trace w')
     = errorsLogged (trace w)
       ++ match faults w (calls w) with
          | None => []
          | Some _ => ["Sync error:"]
          end.
Proof.
  intros w'. subst w'. handlers. simpl.
  destruct (faults w (calls w)); simpl; observe_all; repeat split; reflexivity.
Qed.

(** X8.  A pass started by the timer that fails is neither caught nor
    logged by the screen: its rejection stays unhandled, no [console.error]
    is called and no alert is shown; the callback itself returns normally. *)
Theorem periodic_failure_is_unhandled (w : World) (e : Error) :
  faults w (calls w) = Some e ->
  trace (exec (runCallback SyncTick) w)
  = trace w ++ [Invoked CheckAndSyncData (Some e); UnhandledRejection e]
  /\ errorsLogged (trace (exec (runCallback SyncTick) w)) = errorsLogged (trace w)
  /\ alertsOf (trace (exec (runCallback SyncTick) w)) = alertsOf (trace w)
  /\ completion (runCallback SyncTick) w = Normal tt.
Proof.
  intros F. handlers. rewrite F. simpl. observe_all. rewrite <- ?app_assoc.
  repeat split; reflexivity.
Qed.

Lemma periodic_failure_is_unhandled_witness :
  rejectionsOf
    (trace (elapse (5 * 60 * 1000)
              (withFaults (failAt 4 networkDown) (Home.mount freshWorld))))
  = [networkDown]
  /\ trace (exec (runCallback SyncTick) (withFaults (failAt 0 networkDown) freshWorld))
     = [Invoked CheckAndSyncData (Some networkDown); UnhandledRejection networkDown].
Proof.
  split; [reflexivity|].
  destruct (periodic_failure_is_unhandled
              (withFaults (failAt 0 networkDown) freshWorld) networkDown)
    as (H & _); [reflexivity | exact H].
Defined.

Lemma fold_fire_counts (l : list Timer) (t0 t1 : Z) :
  forall w0 : World,
    countSync (trace (fold_left (fun w' t => fire (firings t t0 t1) (callback t) w') l w0))
    = countSync (trace w0) + allFirings l t0 t1.
Proof.
  induction l as [|t l IH]; intros w0; simpl.
  - lia.
  - rewrite IH. destruct (callback t). rewrite fire_counts. lia.
Qed.

(** Every live timer starts its passes: none is skipped, none is added. *)
Lemma elapse_counts (w : World) (ms : Z) :
  countSync (trace (elapse ms w))
  = countSync (trace w) + allFirings (timers w) (now w) (now w + ms).
Proof. unfold elapse. now rewrite fold_fire_counts. Qed.

Lemma firings_from_start (t : Timer) (ms : Z) :
  firings t (started t) (started t + ms) = Z.to_nat (ms / period t).
Proof.
  unfold firings.
  replace (started t + ms - started t)%Z with ms by lia.
  replace (started t - started t)%Z with 0%Z by lia.
  rewrite Zdiv_0_l. f_equal. lia.
Qed.

(** Passes started by the timers change neither the timers nor the teardown
    kept for the screen; the time only moves by what has gone by. *)
Lemma tick_keeps (w : World) :
  timers (exec (runCallback SyncTick) w) = timers w
  /\ homeCleanup (exec (runCallback SyncTick) w) = homeCleanup w
  /\ now (exec (runCallback SyncTick) w) = now w.
Proof. handlers. destruct (faults w (calls w)); repeat split; reflexivity. Qed.

Lemma fire_keeps (n : nat) :
  forall w : World,
    timers (fire n SyncTick w) = timers w
    /\ homeCleanup (fire n SyncTick w) = homeCleanup w
    /\ now (fire n SyncTick w) = now w.
Proof.
  induction n as [|n IH]; intros w; cbn [fire].
  - repeat split; reflexivity.
  - destruct (IH (exec (runCallback SyncTick) w)) as (-> & -> & ->).
    apply tick_keeps.
Qed.

Lemma fold_fire_keeps (l : list Timer) (t0 t1 : Z) :
  forall w0 : World,
    let w' := fold_left (fun w' t => fire (firings t t0 t1) (callback t) w') l w0 in
    timers w' = timers w0 /\ homeCleanup w' = homeCleanup w0 /\ now w' = now w0.
Proof.
  induction l as [|t l IH]; intros w0; simpl.
  - repeat split; reflexivity.
  - destruct (IH (fire (firings t t0 t1) (callback t) w0)) as (-> & -> & ->).
    destruct (callback t). apply fire_keeps.
Qed.

Lemma elapse_keeps (w : World) (ms : Z) :
  timers (elapse ms w) = timers w
  /\ homeCleanup (elapse ms w) = homeCleanup w
  /\ now (elapse ms w) = (now w + ms)%Z.
Proof.
  unfold elapse.
  destruct (fold_fire_keeps (timers w) (now w) (now w + ms) (withNow (now w + ms) w))
    as (-> & -> & ->).
  repeat split; reflexivity.
Qed.

Lemma firings_syncTimer (v : World) (t0 t1 : Z) :
  firings (syncTimer v) t0 t1
  = Z.to_nat ((t1 - now v) / (5 * 60 * 1000) - (t0 - now v) / (5 * 60 * 1000)).
Proof. reflexivity. Qed.

(** X9.  Leaving the home screen and coming back adds a timer to the one
    that was never cancelled.  With the screen left [gap] milliseconds after
    its first startup and started again, two timers are live, the first
    counting its periods from the first startup and the second from the
    second: [ms] milliseconds later the first has started
    [(gap + ms) / p - gap / p] passes and the second [ms / p], with [p] the
    period of 5 minutes; over any whole number of periods that is two
    passes for each period. *)
Theorem remount_adds_a_timer (w : World) (gap ms : Z) (k : nat) :
  eagerPassCompletes w ->
  timers w = [] ->
  eagerPassCompletes (Home.unmount (elapse gap (Home.mount w))) ->
  let away := Home.unmount (elapse gap (Home.mount w)) in
  let back := Home.mount away in
  timers back = [syncTimer w; syncTimer away]
  /\ started (syncTimer w) = now w
  /\ started (syncTimer away) = (now w + gap)%Z
  /\ countSync (trace (elapse ms back))
     = countSync (trace back)
       + Z.to_nat ((gap + ms) / (5 * 60 * 1000) - gap / (5 * 60 * 1000))
       + Z.to_nat (ms / (5 * 60 * 1000))
  /\ countSync (trace (elapse (Z.of_nat k * (5 * 60 * 1000)) back))
     = countSync (trace back) + 2 * k.
Proof.
  intros [A1 C1] Hnone HA away back. subst back away.
  set (away := Home.unmount (elapse gap (Home.mount w))) in *.
  destruct HA as [A2 C2]. set (back := Home.mount away).
  destruct (mount_runs w A1) as (Hclean & Hnow & Hm). rewrite C1 in Hm.
  destruct Hm as [_ Htm1]. rewrite Hnone in Htm1. simpl in Htm1.
  destruct (elapse_keeps (Home.mount w) gap) as (Et & Ec & En).
  assert (timers away = [syncTimer w]) as Ht1.
  { subst away. unfold Home.unmount. rewrite Ec, Hclean. simpl. now rewrite Et. }
  assert (now away = (now w + gap)%Z) as Hn1.
  { subst away. unfold Home.unmount. rewrite Ec, Hclean. simpl. now rewrite En, Hnow. }
  destruct (mount_runs away A2) as (_ & Hnow2 & Hm2). fold back in Hnow2, Hm2.
  rewrite C2 in Hm2. destruct Hm2 as [_ Htm2]. rewrite Ht1 in Htm2. simpl in Htm2.
  assert (forall d : Z,
            countSync (trace (elapse d back))
            = countSync (trace back)
              + Z.to_nat ((gap + d) / (5 * 60 * 1000) - gap / (5 * 60 * 1000))
              + Z.to_nat (d / (5 * 60 * 1000))) as Hcount.
  { intros d. rewrite elapse_counts, Htm2, Hnow2, Hn1. cbn [allFirings fold_right].
    rewrite !firings_syncTimer, Hn1.
    replace (now w + gap + d - now w)%Z with (gap + d)%Z by lia.
    replace (now w + gap - now w)%Z with gap by lia.
    replace (now w + gap + d - (now w + gap))%Z with d by lia.
    replace (now w + gap - (now w + gap))%Z with 0%Z by lia.
    rewrite Zdiv_0_l. rewrite Z.sub_0_r. lia. }
  split; [exact Htm2|]. split; [reflexivity|]. split; [exact Hn1|].
  split; [apply Hcount|].
  rewrite Hcount. rewrite Z.div_add by lia. rewrite Z.div_mul by lia. lia.
Qed.

Lemma remount_adds_a_timer_witness :
  countSync (trace (elapse 180000
                      (Home.mount (Home.unmount (elapse 120000 (Home.mount freshWorld))))))
  = countSync (trace (Home.mount (Home.unmount (elapse 120000 (Home.mount freshWorld)))))
    + 1
  /\ countSync (trace (elapse 300000
                         (Home.mount (Home.unmount (elapse 120000 (Home.mount freshWorld))))))
     = countSync (trace (Home.mount (Home.unmount (elapse 120000 (Home.mount freshWorld)))))
       + 2.
Proof.
  destruct (remount_adds_a_timer freshWorld 120000 180000 1) as (_ & _ & _ & H & H').
  - repeat split; reflexivity.
  - reflexivity.
  - repeat split; reflexivity.
  - split; [exact H | exact H'].
Defined.

(** ** The profile screen: loading, refusing, cancelling *)

Lemma allWhiteSpace_app (a b : string) :
  JSString.allWhiteSpace (a +:+ b)
  = JSString.allWhiteSpace a && JSString.allWhiteSpace b.
Proof.
  induction a as [|c a IH]; simpl; [reflexivity|].
  now rewrite IH, andb_assoc.
Qed.

Lemma trimStart_blank (s : string) :
  JSString.allWhiteSpace s = true -> JSString.trimStart s = EmptyString.
Proof.
  induction s as [|c s IH]; simpl; [reflexivity|].
  intros H. apply andb_true_iff in H as [-> Hs]. auto.
Qed.

(** [trim] gives the empty text exactly on the texts made of white space only. *)
Lemma trim_empty_iff (s : string) :
  JSString.trim s = EmptyString <-> JSString.allWhiteSpace s = true.
Proof.
  split.
  - intros E. destruct (StringFacts.trim_split s) as (l & r & Hl & Hr & Hs).
    rewrite E in Hs. simpl in Hs. rewrite Hs, allWhiteSpace_app, Hl, Hr. reflexivity.
  - intros H. unfold JSString.trim. now rewrite (trimStart_blank s H).
Qed.

Lemma trim_truthy (s : string) :
  JSString.truthy (JSString.trim s) = negb (JSString.allWhiteSpace s).
Proof.
  destruct (JSString.allWhiteSpace s) eqn:E.
  - apply trim_empty_iff in E. now rewrite E.
  - destruct (JSString.trim s) eqn:T; [|reflexivity].
    apply trim_empty_iff in T. congruence.
Qed.

(** X10.  Loading the profile without a stored session (the key absent or
    empty) shows the alert 'No user session found. Please login again.',
    whose button OK leads to the login screen; the screen keeps the snapshot
    and the edited name it had and leaves its loading state, so that a fresh
    screen shows the retry view. *)
Theorem load_without_session (w : World) :
  faults w (calls w) = None ->
  noSession w = true ->
  trace (exec Profile.loadUserData w)
  = trace w ++ [Invoked (GetItem "userSession") None;
                AlertShown "Error" "No user session found. Please login again."
                  [ {| text := "OK"; onPress := ProfileNoSessionOk |} ]]
  /\ userData (profile (exec Profile.loadUserData w)) = userData (profile w)
  /\ editedName (profile (exec Profile.loadUserData w)) = editedName (profile w)
  /\ profileLoading (profile (exec Profile.loadUserData w)) = false
  /\ Profile.render (profile (exec Profile.loadUserData w))
     = match userData (profile w) with
       | None => Profile.FailedToLoad
       | Some u => Profile.Details u (isEditing (profile w)) (editedName (profile w))
                     (saving (profile w))
       end
  /\ (forall w' : World,
        trace (exec (press ProfileNoSessionOk) w') = trace w' ++ [RouterReplace "/login"]).
Proof.
  intros F N. unfold noSession in N.
  assert (trace (exec Profile.loadUserData w)
          = trace w ++ [Invoked (GetItem "userSession") None;
                        AlertShown "Error" "No user session found. Please login again."
                          [ {| text := "OK"; onPress := ProfileNoSessionOk |} ]]
          /\ profile (exec Profile.loadUserData w)
             = {| userData := userData (profile w); profileLoading := false;
                  isEditing := isEditing (profile w);
                  editedName := editedName (profile w);
                  saving := saving (profile w) |}) as [Htr Hp].
  { handlers. rewrite F. simpl.
    destruct (storage w !! "userSession") as [t|]; simpl.
    - destruct (JSString.truthy t); [discriminate|]. simpl.
      rewrite <- ?app_assoc. split; reflexivity.
    - rewrite <- ?app_assoc. split; reflexivity. }
  rewrite Hp. split; [exact Htr|]. repeat split.
Qed.

Lemma load_without_session_witness :
  Profile.render (profile (exec Profile.loadUserData freshWorld)) = Profile.FailedToLoad.
Proof.
  destruct (load_without_session freshWorld) as (_ & _ & _ & _ & H & _);
    [reflexivity | reflexivity | exact H].
Defined.

(** X11.  Whatever is stored and whatever fails, [loadUserData] does not
    reject, leaves the loading state, reads the session key once and writes
    nothing: storage and the Local Store are as before. *)
Theorem load_always_settles (w : World) :
  completion Profile.loadUserData w = Normal tt
  /\ profileLoading (profile (exec Profile.loadUserData w)) = false
  /\ Profile.render (profile (exec Profile.loadUserData w)) <> Profile.LoadingProfile
  /\ storage (exec Profile.loadUserData w) = storage w
  /\ users (exec Profile.loadUserData w) = users w
  /\ callsOf (trace (exec Profile.loadUserData w))
     = callsOf (trace w) ++ [GetItem "userSession"].
Proof.
  assert (completion Profile.loadUserData w = Normal tt
          /\ profileLoading (profile (exec Profile.loadUserData w)) = false
          /\ storage (exec Profile.loadUserData w) = storage w
          /\ users (exec Profile.loadUserData w) = users w
          /\ callsOf (trace (exec Profile.loadUserData w))
             = callsOf (trace w) ++ [GetItem "userSession"]) as (H1 & H2 & H3 & H4 & H5).
  { handlers. destruct (faults w (calls w)) eqn:F; simpl;
      [|by_session w]; observe_all; repeat split; reflexivity. }
  repeat split; try assumption.
  unfold Profile.render. rewrite H2.
  destruct (userData (profile (exec Profile.loadUserData w))); discriminate.
Qed.

(** X12.  Saving is refused exactly for the names made of white space only
    (the empty name among them): the alert 'Name cannot be empty' is all that
    happens, nothing is written and the screen keeps its state; any other
    name leads to one write of the session key. *)
Theorem save_refuses_blank_names (w : World) (n : string) :
  editedName (profile w) = Some n ->
  if JSString.allWhiteSpace n
  then exec Profile.handleSaveProfile w
       = record (AlertShown "Error" "Name cannot be empty" []) w
  else callsOf (trace (exec Profile.handleSaveProfile w))
       = callsOf (trace w)
         ++ [SetItem "userSession"
               (JSON.stringify
                  (JSON.set (Profile.spread (userData (profile w))) "name"
                     (JSString.trim n)))].
Proof.
  intros E. pose proof (trim_truthy n) as T.
  destruct (JSString.allWhiteSpace n); simpl in T.
  - handlers. rewrite E. simpl. rewrite T. reflexivity.
  - handlers. rewrite E. simpl. rewrite T. simpl.
    destruct (faults w (calls w)); simpl; now observe_all.
Qed.

Lemma save_refuses_blank_names_witness :
  storage (exec Profile.handleSaveProfile
             (exec (Profile.onChangeText "   ") ashaEditing))
  = storage ashaEditing
  /\ alertsOf (trace (exec Profile.handleSaveProfile
                        (exec (Profile.onChangeText "   ") ashaEditing)))
     = [("Error", "Name cannot be empty")].
Proof.
  pose proof (save_refuses_blank_names
                (exec (Profile.onChangeText "   ") ashaEditing) "   " eq_refl) as H.
  simpl in H. rewrite H. split; reflexivity.
Defined.

(** X13.  A save with a name that is not blank ends in one of two ways.
    When the write goes through, the screen takes the new snapshot, leaves
    the editing mode and confirms with an alert.  When the write is
    rejected, the screen keeps its snapshot and stays in the editing mode,
    logs the error and alerts the failure.  Either way the handler does not
    reject, the saving flag is off again, the only external call is the
    write of the session key, and neither another storage key nor the Local
    Store is touched: the new name does not reach the Local Store. *)
Theorem save_outcome (w : World) (n : string) :
  editedName (profile w) = Some n ->
  JSString.allWhiteSpace n = false ->
  let updated := JSON.set (Profile.spread (userData (profile w))) "name" (JSString.trim n) in
  let w' := exec Profile.handleSaveProfile w in
  completion Profile.handleSaveProfile w = Normal tt
  /\ saving (profile w') = false
  /\ editedName (profile w') = Some n
  /\ users w' = users w
  /\ (forall k : string, k <> "userSession" -> storage w' !! k = storage w !! k)
  /\ callsOf (trace w')
     = callsOf (trace w) ++ [SetItem "userSession" (JSON.stringify updated)]
  /\ match faults w (calls w) with
     | None =>
         userData (profile w') = Some updated
         /\ isEditing (profile w') = false
         /\ alertsOf (trace w')
            = alertsOf (trace w) ++ [("Success", "Profile updated successfully!")]
         /\ errorsLogged (trace w') = errorsLogged (trace w)
     | Some e =>
         userData (profile w') = userData (profile w)
         /\ isEditing (profile w') = isEditing (profile w)
         /\ alertsOf (trace w')
            = alertsOf (trace w)
              ++ [("Error", "Failed to update profile. Please try again.")]
         /\ errorsLogged (trace w') = errorsLogged (trace w) ++ ["Error saving profile:"]
     end.
Proof.
  intros E B updated w'. subst updated w'.
  pose proof (trim_truthy n) as T. rewrite B in T. simpl in T.
  handlers. rewrite E. simpl. rewrite T. simpl.
  destruct (faults w (calls w)) as [e|]; simpl; observe_all;
    repeat split; try reflexivity; try exact E.
  intros k Hk. now apply lookup_insert_ne.
Qed.

Lemma save_outcome_witness :
  isEditing (profile (exec Profile.handleSaveProfile ashaEditing)) = false
  /\ isEditing (profile (exec Profile.handleSaveProfile
                           (withFaults (failAt 0 networkDown) ashaEditing))) = true
  /\ users (exec Profile.handleSaveProfile ashaEditing) = [ashaRecord].
Proof.
  destruct (save_outcome ashaEditing "  Asha R. Rao " eq_refl eq_refl)
    as (_ & _ & _ & Hu & _ & _ & _ & He & _).
  destruct (save_outcome (withFaults (failAt 0 networkDown) ashaEditing)
              "  Asha R. Rao " eq_refl eq_refl)
    as (_ & _ & _ & _ & _ & _ & _ & He' & _).
  repeat split; assumption.
Defined.

Lemma set_set_same (o : JSON.object) (k v : string) :
  JSON.set (JSON.set o k v) k v = JSON.set o k v.
Proof.
  induction o as [|[k' v'] o IH]; simpl.
  - now rewrite String.eqb_refl.
  - destruct (String.eqb k' k) eqn:E; simpl; rewrite E; [reflexivity | now rewrite IH].
Qed.

Lemma save_goes_through (w : World) (n : string) :
  editedName (profile w) = Some n ->
  JSString.allWhiteSpace n = false ->
  faults w (calls w) = None ->
  let updated := JSON.set (Profile.spread (userData (profile w))) "name" (JSString.trim n) in
  let w' := exec Profile.handleSaveProfile w in
  storage w' = <["userSession" := JSON.stringify updated]> (storage w)
  /\ userData (profile w') = Some updated
  /\ editedName (profile w') = Some n
  /\ faults w' = faults w
  /\ calls w' = S (calls w)
  /\ users w' = users w.
Proof.
  intros E B F updated w'. subst updated w'.
  pose proof (trim_truthy n) as T. rewrite B in T. simpl in T.
  handlers. rewrite E. simpl. rewrite T. simpl. rewrite F. simpl.
  repeat split; try reflexivity; exact E.
Qed.

(** X14.  Saving twice in a row with the same name is the same as saving
    once: the second save writes the text the first one wrote and leaves
    the snapshot of the screen as the first one made it. *)
Theorem save_twice_is_save_once (w : World) (n : string) :
  editedName (profile w) = Some n ->
  JSString.allWhiteSpace n = false ->
  faults w (calls w) = None ->
  faults w (S (calls w)) = None ->
  storage (exec Profile.handleSaveProfile (exec Profile.handleSaveProfile w))
  = storage (exec Profile.handleSaveProfile w)
  /\ userData (profile (exec Profile.handleSaveProfile (exec Profile.handleSaveProfile w)))
     = userData (profile (exec Profile.handleSaveProfile w)).
Proof.
  intros E B F0 F1.
  destruct (save_goes_through w n E B F0) as (S1 & U1 & E1 & Hf & Hc & _).
  destruct (save_goes_through (exec Profile.handleSaveProfile w) n E1 B)
    as (S2 & U2 & _).
  { now rewrite Hf, Hc. }
  rewrite S2, U2, U1, S1. simpl Profile.spread. rewrite set_set_same.
  split; [apply insert_insert_eq | reflexivity].
Qed.

Lemma save_twice_is_save_once_witness :
  storage (exec Profile.handleSaveProfile (exec Profile.handleSaveProfile ashaEditing))
  = storage (exec Profile.handleSaveProfile ashaEditing).
Proof.
  apply (save_twice_is_save_once ashaEditing "  Asha R. Rao "); reflexivity.
Defined.

(** X15.  Cancelling an edit throws away what was typed: the field goes back
    to the name of the snapshot (to the empty text when there is none), the
    editing mode is left, and nothing is stored, called or shown.  The button
    of the header leaves the editing mode too but keeps what was typed. *)
Theorem cancel_discards_typed_name (w : World) (typed : string) :
  let w1 := exec (Profile.onChangeText typed) w in
  exec Profile.handleCancelEdit w1
  = withProfile
      {| userData := userData (profile w);
         profileLoading := profileLoading (profile w);
         isEditing := false;
         editedName :=
           Some (match userData (profile w) with
                 | Some u => match JSON.get u "name" with
                             | Some name => name
                             | None => EmptyString
                             end
                 | None => EmptyString
                 end);
         saving := saving (profile w) |} w
  /\ editedName (profile (exec Profile.toggleEditing w1)) = Some typed
  /\ isEditing (profile (exec Profile.toggleEditing w1)) = negb (isEditing (profile w)).
Proof.
  split; [|split; reflexivity].
  screens. simpl. destruct w as [? ? ? ? ? ? ? ? ? [u ? ? ? ?] ? ?]. simpl.
  destruct u as [u|]; [|reflexivity].
  destruct (JSON.get u "name") as [name|]; [|reflexivity].
  now destruct name.
Qed.

(** ** From one screen to the other *)

(** X16.  A name saved on the profile screen is the one the home screen
    greets the next time it starts: after a save that went through, once
    [initDatabase] has completed and the session key has been read, the home
    screen shows the trimmed new name. *)
Theorem saved_name_greets_on_home (w : World) (s : JSON.object) (n : string) :
  userData (profile w) = Some s ->
  JSON.ordinary s = true ->
  editedName (profile w) = Some n ->
  JSString.allWhiteSpace n = false ->
  faults w (calls w) = None ->
  faults w (S (calls w)) = None ->
  faults w (S (S (calls w))) = None ->
  isLoggedIn (home (Home.mount (exec Profile.handleSaveProfile w))) = Some true
  /\ Home.render (home (Home.mount (exec Profile.handleSaveProfile w)))
     = Home.Welcome (Some (JSString.trim n)).
Proof.
  intros U O E B F0 F1 F2.
  destruct (save_goes_through w n E B F0) as (S1 & _ & _ & Hf & Hc & _).
  rewrite U in S1. simpl in S1.
  destruct (mount_reads_session (exec Profile.handleSaveProfile w)
              (JSON.stringify (JSON.set s "name" (JSString.trim n)))
              (JSON.set s "name" (JSString.trim n))) as (H1 & H2 & H3).
  - now rewrite Hf, Hc.
  - now rewrite Hf, Hc.
  - rewrite S1. apply lookup_insert_eq.
  - reflexivity.
  - apply JSONFacts.parse_stringify, ObjectFacts.ordinary_set; [reflexivity | exact O].
  - rewrite ObjectFacts.get_set_same in H2. split; [exact H1|].
    unfold Home.render. now rewrite H3, H1, H2.
Qed.

Lemma saved_name_greets_on_home_witness :
  Home.render (home (Home.mount (exec Profile.handleSaveProfile ashaEditing)))
  = Home.Welcome (Some "Asha R. Rao").
Proof.
  apply (saved_name_greets_on_home ashaEditing ashaSnapshot "  Asha R. Rao ");
    reflexivity.
Defined.

(** X17.  Logging out from the profile screen goes to the home screen, and
    the home screen that starts then finds no session: once [initDatabase]
    has completed and the session key has been read, the user is logged out
    and the landing screen is shown. *)
Theorem profile_logout_lands_on_home (w : World) :
  faults w (calls w) = None ->
  faults w (S (calls w)) = None ->
  faults w (S (S (calls w))) = None ->
  trace (exec Profile.logoutConfirmed w)
  = trace w ++ [Invoked (RemoveItem "userSession") None; RouterReplace "/"]
  /\ isLoggedIn (home (Home.mount (exec Profile.logoutConfirmed w))) = Some false
  /\ Home.render (home (Home.mount (exec Profile.logoutConfirmed w))) = Home.Landing.
Proof.
  intros F0 F1 F2.
  assert (trace (exec Profile.logoutConfirmed w)
          = trace w ++ [Invoked (RemoveItem "userSession") None; RouterReplace "/"]
          /\ storage (exec Profile.logoutConfirmed w) = delete "userSession" (storage w)
          /\ faults (exec Profile.logoutConfirmed w) = faults w
          /\ calls (exec Profile.logoutConfirmed w) = S (calls w)) as (Htr & Hst & Hf & Hc).
  { handlers. rewrite F0. simpl. rewrite <- ?app_assoc. repeat split; reflexivity. }
  destruct (mount_finds_no_session (exec Profile.logoutConfirmed w)) as (H1 & _ & H3).
  - now rewrite Hf, Hc.
  - now rewrite Hf, Hc.
  - unfold noSession. now rewrite Hst, lookup_delete_eq.
  - repeat split; try assumption. unfold Home.render. now rewrite H3, H1.
Qed.

Lemma profile_logout_lands_on_home_witness :
  Home.render (home (Home.mount (exec Profile.logoutConfirmed ashaEditing)))
  = Home.Landing.
Proof. apply (profile_logout_lands_on_home ashaEditing); reflexivity. Defined.

(** X18.  A stored snapshot that has no name makes the save fail before it
    does anything: loading it leaves the edited name undefined, and a save
    pressed then throws a TypeError outside the [try] block, so that nothing
    is written, nothing is logged and no alert is shown. *)
Theorem save_without_name_throws (w : World) (t : string) (o : JSON.object) :
  storage w !! "userSession" = Some t ->
  JSString.truthy t = true ->
  JSON.parse t = Some o ->
  JSON.get o "name" = None ->
  faults w (calls w) = None ->
  editedName (profile (exec Profile.loadUserData w)) = None
  /\ completion Profile.handleSaveProfile (exec Profile.loadUserData w) = Thrown typeError
  /\ exec Profile.handleSaveProfile (exec Profile.loadUserData w)
     = exec Profile.loadUserData w.
Proof.
  intros Hs Ht Hp N F.
  destruct (load_reads w t o Hs Ht Hp F) as (_ & E & _). rewrite N in E.
  set (w1 := exec Profile.loadUserData w) in *.
  split; [exact E|].
  unfold completion, Profile.handleSaveProfile, bind, throw.
  unfold exec at 1. rewrite E. split; reflexivity.
Qed.

Lemma save_without_name_throws_witness :
  completion Profile.handleSaveProfile
    (exec Profile.loadUserData
       (withStorage (<["userSession" := JSON.stringify [("id", "1")]]> ∅) freshWorld))
  = Thrown typeError.
Proof.
  apply (save_without_name_throws
           (withStorage (<["userSession" := JSON.stringify [("id", "1")]]> ∅) freshWorld)
           (JSON.stringify [("id", "1")]) [("id", "1")]); reflexivity.
Defined.

(** ** The signup screen: refusals, failures, white space *)

(** The alert of the first check that fails. *)
Lemma handleSignup_invalid (w : World) :
  validSubmission (signup w) = false ->
  Signup.handleSignup w
  = (Normal tt,
     record
       (AlertShown "Error"
          (if negb (Signup.filled (signup w)) then "Please fill in all fields"
           else if negb (Signup.validateEmail (JSString.trim (email (signup w))))
           then "Please enter a valid email address"
           else if negb (String.eqb (password (signup w)) (confirmPassword (signup w)))
           then "Passwords do not match"
           else "Password must be at least 6 characters long") []) w).
Proof.
  intros V. unfold validSubmission in V. unfold Signup.handleSignup.
  destruct (Signup.filled (signup w)); simpl in *; [|reflexivity].
  destruct (Signup.validateEmail (JSString.trim (email (signup w)))); simpl in *;
    [|reflexivity].
  destruct (String.eqb (password (signup w)) (confirmPassword (signup w))); simpl in *;
    [|reflexivity].
  apply negb_false_iff in V. now rewrite V.
Qed.

(** X19.  A submission that fails one of the four checks only shows an
    alert: [createUser] is not called, the loading flag is not switched on,
    and the form, the Local Store and storage are as they were.  The alert
    names the first check that fails: fields left blank, then the shape of
    the email, then the two passwords, then the length of the password. *)
Theorem invalid_submission_only_alerts (w : World) :
  validSubmission (signup w) = false ->
  let f := signup w in
  let reason :=
    if negb (Signup.filled f) then "Please fill in all fields"
    else if negb (Signup.validateEmail (JSString.trim (email f)))
    then "Please enter a valid email address"
    else if negb (String.eqb (password f) (confirmPassword f))
    then "Passwords do not match"
    else "Password must be at least 6 characters long" in
  exec Signup.handleSignup w = record (AlertShown "Error" reason []) w
  /\ completion Signup.handleSignup w = Normal tt.
Proof.
  intros V f reason. subst f reason. unfold exec, completion.
  rewrite (handleSignup_invalid w V). split; reflexivity.
Qed.

Lemma invalid_submission_only_alerts_witness :
  alertsOf (trace (exec Signup.handleSignup
                     (exec (Signup.setConfirmPassword "secret2")
                        (withSignup ashaForm freshWorld))))
  = [("Error", "Passwords do not match")]
  /\ users (exec Signup.handleSignup
              (exec (Signup.setConfirmPassword "secret2")
                 (withSignup ashaForm freshWorld))) = [].
Proof.
  destruct (invalid_submission_only_alerts
              (exec (Signup.setConfirmPassword "secret2")
                 (withSignup ashaForm freshWorld)) eq_refl) as [H _].
  rewrite H. split; reflexivity.
Defined.

(** X20.  Whatever is typed, and whether [createUser] resolves or rejects
    with an error object (one whose [message] is a string or is missing),
    [handleSignup] does not reject and ends with exactly one more alert; it
    never touches storage (signing up does not log in), keeps what is typed
    in the four fields, calls nothing but [createUser], once and only for a
    submission that passes the checks, and leaves the loading flag off
    after such a call.  (A rejection with [undefined] or [null] is not an
    [Error] of the model: there the [catch] block itself would throw.) *)
Theorem signup_always_settles (w : World) :
  let w' := exec Signup.handleSignup w in
  completion Signup.handleSignup w = Normal tt
  /\ storage w' = storage w
  /\ name (signup w') = name (signup w)
  /\ email (signup w') = email (signup w)
  /\ password (signup w') = password (signup w)
  /\ confirmPassword (signup w') = confirmPassword (signup w)
  /\ signupLoading (signup w')
     = (if validSubmission (signup w) then false else signupLoading (signup w))
  /\ callsOf (trace w')
     = callsOf (trace w)
       ++ (if validSubmission (signup w)
           then [CreateUser (JSString.trim (name (signup w)))
                   (JSString.toLowerCase (JSString.trim (email (signup w))))
                   (password (signup w))]
           else [])
  /\ length (alertsOf (trace w')) = S (length (alertsOf (trace w))).
Proof.
  intros w'. subst w'. destruct (validSubmission (signup w)) eqn:V.
  - unfold exec, completion. rewrite (handleSignup_valid w V).
    pose proof (nextId_positive (users w)) as Hpos.
    assert ((Database.nextId (users w) =? 0)%Z = false) as Hnz by lia.
    handlers. simpl. destruct (faults w (calls w)) as [e|]; simpl.
    + destruct (JSString.includes _ _); simpl; observe_all;
        rewrite ?length_app; simpl; repeat split; try reflexivity; lia.
    + destruct (Database.emailTaken _ _); simpl; rewrite ?Hnz; simpl; observe_all;
        rewrite ?length_app; simpl; repeat split; try reflexivity; lia.
  - unfold exec, completion. rewrite (handleSignup_invalid w V).
    simpl. observe_all. rewrite ?length_app. simpl.
    repeat split; try reflexivity; lia.
Qed.

(** X21.  When [createUser] fails with an error that carries no message, or
    an empty one, the alert 'Signup Failed' shows the text
    'An error occurred during signup. Please try again.'; the failure is
    logged, the loading flag is off and the Local Store is unchanged. *)
Theorem signup_failure_without_message (w : World) (err : Error) :
  validSubmission (signup w) = true ->
  faults w (calls w) = Some err ->
  message err = None \/ message err = Some EmptyString ->
  let w' := exec Signup.handleSignup w in
  alertsOf (trace w')
  = alertsOf (trace w)
    ++ [("Signup Failed", "An error occurred during signup. Please try again.")]
  /\ errorsLogged (trace w') = errorsLogged (trace w) ++ ["Signup error:"]
  /\ signupLoading (signup w') = false
  /\ users w' = users w.
Proof.
  intros V F M w'. subst w'. unfold exec. rewrite (handleSignup_valid w V).
  handlers. simpl. rewrite F. simpl.
  assert (messageOr err "An error occurred during signup. Please try again."
          = "An error occurred during signup. Please try again.") as ->.
  { unfold messageOr. destruct M as [-> | ->]; reflexivity. }
  simpl. observe_all. repeat split; reflexivity.
Qed.

Lemma signup_failure_without_message_witness :
  alertsOf (trace (exec Signup.handleSignup
                     (withFaults (failAt 0 {| message := None |})
                        (withSignup ashaForm freshWorld))))
  = [("Signup Failed", "An error occurred during signup. Please try again.")].
Proof.
  destruct (signup_failure_without_message
              (withFaults (failAt 0 {| message := None |})
                 (withSignup ashaForm freshWorld)) {| message := None |})
    as (H & _); [reflexivity | reflexivity | now left | exact H].
Defined.

(** X22.  The [catch] block of the signup takes an error for a duplicate
    email exactly when the text 'already exists' stands somewhere in the
    message it shows, with anything before and after it. *)
Theorem duplicate_dialog_iff_substring (w : World) (err : Error) :
  let shown := messageOr err "An error occurred during signup. Please try again." in
  (exists a b : string, shown = a +:+ "already exists" +:+ b)
  <-> alertsOf (trace (exec (Signup.failed err) w))
      = alertsOf (trace w) ++ [("Email Already Exists", shown)].
Proof.
  intros shown. rewrite <- (includes_iff "already exists" shown).
  destruct (failed_runs w err) as (Htr & _). fold shown in Htr. rewrite Htr.
  destruct (JSString.includes shown "already exists"); observe_all; split; intros H.
  - reflexivity.
  - reflexivity.
  - discriminate.
  - apply app_inv_head in H. discriminate.
Qed.

Lemma trimStart_padding (l x : string) :
  JSString.allWhiteSpace l = true -> JSString.trimStart (l +:+ x) = JSString.trimStart x.
Proof.
  induction l as [|c l IH]; simpl; [reflexivity|].
  intros H. apply andb_true_iff in H as [-> Hl]. auto.
Qed.

Lemma trimEnd_blank (r : string) :
  JSString.allWhiteSpace r = true -> JSString.trimEnd r = EmptyString.
Proof.
  induction r as [|c r IH]; simpl; [reflexivity|].
  intros H. apply andb_true_iff in H as [-> Hr]. now rewrite (IH Hr).
Qed.

Lemma trimEnd_padding (x r : string) :
  JSString.allWhiteSpace r = true -> JSString.trimEnd (x +:+ r) = JSString.trimEnd x.
Proof.
  intros H. induction x as [|c x IH]; simpl.
  - now apply trimEnd_blank.
  - now rewrite IH.
Qed.

(** White space around a text is lost in [trim]. *)
Lemma trim_padding (l s r : string) :
  JSString.allWhiteSpace l = true ->
  JSString.allWhiteSpace r = true ->
  JSString.trim (l +:+ s +:+ r) = JSString.trim s.
Proof.
  intros Hl Hr. unfold JSString.trim. rewrite (trimStart_padding l _ Hl).
  induction s as [|c s IH]; simpl.
  - now rewrite (trimStart_blank r Hr).
  - destruct (JSString.isWhiteSpace c); [exact IH|].
    change (String c (s +:+ r)) with (String c s +:+ r).
    now apply trimEnd_padding.
Qed.

(** X23.  White space typed before or after the name or the email makes no
    difference: the padded submission passes the checks as the plain one
    does, calls [createUser] with the same arguments, shows the same alert
    and leaves the Local Store in the same state. *)
Theorem padding_makes_no_difference (w : World) (ln rn le re : string) :
  JSString.allWhiteSpace ln = true ->
  JSString.allWhiteSpace rn = true ->
  JSString.allWhiteSpace le = true ->
  JSString.allWhiteSpace re = true ->
  validSubmission (signup w) = true ->
  let padded :=
    withSignup {| name := ln +:+ name (signup w) +:+ rn;
                  email := le +:+ email (signup w) +:+ re;
                  password := password (signup w);
                  confirmPassword := confirmPassword (signup w);
                  signupLoading := signupLoading (signup w);
                  emailInput := emailInput (signup w) |} w in
  validSubmission (signup padded) = true
  /\ callsOf (trace (exec Signup.handleSignup padded))
     = callsOf (trace (exec Signup.handleSignup w))
  /\ alertsOf (trace (exec Signup.handleSignup padded))
     = alertsOf (trace (exec Signup.handleSignup w))
  /\ users (exec Signup.handleSignup padded) = users (exec Signup.handleSignup w).
Proof.
  intros Hln Hrn Hle Hre V padded.
  assert (validSubmission (signup padded) = true) as V'.
  { subst padded. unfold validSubmission, Signup.filled in *. simpl.
    now rewrite !trim_padding. }
  split; [exact V'|].
  unfold exec. rewrite (handleSignup_valid w V), (handleSignup_valid padded V').
  subst padded. simpl signup. simpl name. simpl email. simpl password.
  rewrite !trim_padding by assumption.
  handlers. simpl.
  destruct (faults w (calls w)) as [e|]; simpl.
  - destruct (JSString.includes _ _); simpl; repeat split; reflexivity.
  - destruct (Database.emailTaken _ _); simpl.
    + repeat split; reflexivity.
    + destruct (Database.nextId (users w) =? 0)%Z; simpl; repeat split; reflexivity.
Qed.

Lemma padding_makes_no_difference_witness :
  callsOf (trace (exec Signup.handleSignup
                    (exec (Signup.setEmail "  ASHA@x.com  ")
                       (withSignup ashaForm freshWorld))))
  = [CreateUser "Asha Rao" "asha@x.com" "secret1"].
Proof.
  destruct (padding_makes_no_difference (withSignup ashaForm freshWorld)
              EmptyString EmptyString "  " " ") as (_ & H & _);
    [reflexivity | reflexivity | reflexivity | reflexivity | reflexivity | exact H].
Defined.

(** X24.  The startup of the signup screen: [initDatabase], then
    [setupSyncListener], and nothing else (no pass is started, no timer is
    installed, nothing is stored).  When [initDatabase] fails the listener
    is not registered; either failure is logged and shown as
    'Database Error', and the startup does not reject. *)
Theorem signup_startup (w : World) :
  let w' := exec Signup.initializeApp w in
  completion Signup.initializeApp w = Normal tt
  /\ completion Signup.effect w = Normal tt
  /\ storage w' = storage w /\ users w' = users w /\ timers w' = timers w
  /\ signup w' = signup w
  /\ trace w'
     = trace w
       ++ match faults w (calls w) with
          | Some e =>
              [Invoked InitDatabase (Some e);
               ConsoleError "Error initializing database:" e;
               AlertShown "Database Error"
                 "Failed to initialize database. Please restart the app." []]
          | None =>
              match faults w (S (calls w)) with
              | Some e =>
                  [Invoked InitDatabase None;
                   Invoked SetupSyncListener (Some e);
                   ConsoleError "Error initializing database:" e;
                   AlertShown "Database Error"
                     "Failed to initialize database. Please restart the app." []]
              | None => [Invoked InitDatabase None; Invoked SetupSyncListener None]
              end
          end.
Proof.
  intros w'. subst w'. split; [|split; [apply floating_normal|]].
  - screens. by_faults; reflexivity.
  - screens. by_faults; rewrite <- ?app_assoc; repeat split; reflexivity.
Qed.

(** ** Startup and loading, as a whole *)

(** X25.  The startup of the home screen goes all the way or stops with the
    alert: either the five calls are made in order ([initDatabase], the read
    of the session key, [setupSyncListener], the eager pass, [setInterval]),
    no alert is shown and the timer is installed; or the calls made are a
    proper beginning of that list, the failure is logged and alerted once,
    and no timer is installed. *)
Theorem startup_all_or_alert (w : World) :
  let steps := [InitDatabase; GetItem "userSession"; SetupSyncListener;
                CheckAndSyncData; SetInterval (nextTimer w) (5 * 60 * 1000)] in
  (callsOf (trace (Home.mount w)) = callsOf (trace w) ++ steps
   /\ alertsOf (trace (Home.mount w)) = alertsOf (trace w)
   /\ errorsLogged (trace (Home.mount w)) = errorsLogged (trace w)
   /\ timers (Home.mount w) = timers w ++ [syncTimer w])
  \/ (exists k : nat,
        k < 5
        /\ callsOf (trace (Home.mount w)) = callsOf (trace w) ++ firstn k steps
        /\ alertsOf (trace (Home.mount w))
           = alertsOf (trace w)
             ++ [("Error",
                  "Failed to initialize the application. Please restart the app.")]
        /\ errorsLogged (trace (Home.mount w))
           = errorsLogged (trace w) ++ ["Error initializing app:"]
        /\ timers (Home.mount w) = timers w).
Proof.
  intros steps. subst steps. handlers.
  destruct (faults w (calls w)) eqn:F0; simpl.
  { right. exists 1. observe_all. repeat split; try reflexivity; lia. }
  destruct (faults w (S (calls w))) eqn:F1; simpl.
  { right. exists 2. observe_all. repeat split; try reflexivity; lia. }
  by_session w.
  - destruct (faults w (S (S (calls w)))) eqn:F2; simpl.
    { right. exists 3. observe_all. repeat split; try reflexivity; lia. }
    destruct (faults w (S (S (S (calls w))))) eqn:F3; simpl.
    { right. exists 4. observe_all. repeat split; try reflexivity; lia. }
    left. observe_all. repeat split; reflexivity.
  - right. exists 2. observe_all. repeat split; try reflexivity; lia.
  - destruct (faults w (S (S (calls w)))) eqn:F2; simpl.
    { right. exists 3. observe_all. repeat split; try reflexivity; lia. }
    destruct (faults w (S (S (S (calls w))))) eqn:F3; simpl.
    { right. exists 4. observe_all. repeat split; try reflexivity; lia. }
    left. observe_all. repeat split; reflexivity.
  - destruct (faults w (S (S (calls w)))) eqn:F2; simpl.
    { right. exists 3. observe_all. repeat split; try reflexivity; lia. }
    destruct (faults w (S (S (S (calls w))))) eqn:F3; simpl.
    { right. exists 4. observe_all. repeat split; try reflexivity; lia. }
    left. observe_all. repeat split; reflexivity.
Qed.

(** X26.  Loading the profile with a stored snapshot shows it: the screen
    takes the snapshot, puts its name in the field of the editor, leaves
    the loading state and shows the details; nothing is alerted or logged. *)
Theorem load_shows_snapshot (w : World) (t : string) (o : JSON.object) :
  storage w !! "userSession" = Some t ->
  JSString.truthy t = true ->
  JSON.parse t = Some o ->
  faults w (calls w) = None ->
  let w' := exec Profile.loadUserData w in
  Profile.render (profile w')
  = Profile.Details o (isEditing (profile w)) (JSON.get o "name") (saving (profile w))
  /\ trace w' = trace w ++ [Invoked (GetItem "userSession") None].
Proof.
  intros Hs Ht Hp F w'. subst w'. handlers. rewrite F. simpl. rewrite Hs, Ht, Hp. simpl.
  split; reflexivity.
Qed.

Lemma load_shows_snapshot_witness :
  Profile.render (profile (exec Profile.loadUserData ashaEditing))
  = Profile.Details ashaSnapshot true (Some "Asha Rao") false.
Proof.
  apply (load_shows_snapshot ashaEditing (JSON.stringify ashaSnapshot) ashaSnapshot);
    reflexivity.
Defined.
